(** * yt-gui: a shallow embedding of [main.py]

    The program is a PySide6 front end for yt-dlp.  Three classes carry the
    logic: [YTDLPLogger] (the logger adapter handed to the library),
    [DownloadWorker] (the background job: progress hook, option dictionary,
    the guarded download call) and [MainWindow] (the controller).

    Python values that reach the code are modelled by [pyval]; floats are
    IEEE-754 binary64, computed with the bit-exact operations of
    [SpecFloat]; dictionaries are finite maps with string keys; raising is
    an outcome of a computation; emitting a Qt signal appends to the trace
    of the computation. *)

From Stdlib Require Import ZArith String Ascii List Bool Lia.
From Stdlib Require Import SpecFloat.
From stdpp Require Import gmap strings.

Local Open Scope Z_scope.

(** ** Python values and exceptions *)

(** The values an event dictionary of the library holds: [None], integers,
    floats and strings. *)
Inductive pyval :=
| PyNone
| PyInt (z : Z)
| PyFloat (f : spec_float)
| PyStr (s : string).

(** The name [type(v).__name__] that Python prints in a [TypeError]. *)
Definition type_name (v : pyval) : string :=
  match v with
  | PyNone => "NoneType"
  | PyInt _ => "int"
  | PyFloat _ => "float"
  | PyStr _ => "str"
  end.

(** Exception classes.  The first seven derive from [Exception]
    ([OtherException] stands for any further such class, e.g. the
    library's [DownloadError]); the last three derive from [BaseException]
    only. *)
Inductive exn_class :=
| KeyError
| ZeroDivisionError
| TypeError
| AttributeError
| OverflowError
| ValueError
| OtherException (name : string)
| KeyboardInterrupt
| SystemExit
| GeneratorExit.

(** An exception object: its class and [str(e)]. *)
Record exn := Exn { exn_cls : exn_class; exn_msg : string }.

(** [isinstance(e, Exception)]: what [except Exception] catches. *)
Definition is_Exception (e : exn) : bool :=
  match exn_cls e with
  | KeyboardInterrupt | SystemExit | GeneratorExit => false
  | _ => true
  end.

(** What [except (ValueError, AttributeError)] catches. *)
Definition is_ValueError_or_AttributeError (e : exn) : bool :=
  match exn_cls e with
  | ValueError | AttributeError => true
  | _ => false
  end.

(** ** Signals and the effect monad *)

(** The three Qt signals declared by [DownloadWorker], with their payload:
    [progress = Signal(int)], [log = Signal(str)], [finished = Signal()].
    The payload of [progress] is the Python [int] handed to [emit]; its
    conversion to Qt's machine integer is not part of the model. *)
Inductive signal :=
| progress (n : Z)
| log (s : string)
| finished.

(** A computation emits signals, in order, and then either returns a value
    or raises. *)
Definition M (A : Type) : Type := (list signal * (exn + A))%type.

#[global] Instance M_ret : MRet M := fun A a => ([], inr a).

#[global] Instance M_bind : MBind M := fun A B f m =>
  match m with
  | (t, inl e) => (t, inl e)
  | (t, inr a) => let '(t', r) := f a in (t ++ t', r)
  end.

(** [sig.emit(...)] *)
Definition emit (s : signal) : M unit := ([s], inr tt).

(** [raise e] *)
Definition raise {A : Type} (e : exn) : M A := ([], inl e).

(** [try: body / except <classes>: handler]; an exception outside
    [classes] passes through. *)
Definition try_except {A : Type} (body : M A) (classes : exn -> bool)
    (handler : exn -> M A) : M A :=
  match body with
  | (t, inl e) =>
      if classes e then let '(t', r) := handler e in (t ++ t', r)
      else (t, inl e)
  | (t, inr a) => (t, inr a)
  end.

(** The signals emitted by a computation, and how it ended. *)
Definition trace {A : Type} (m : M A) : list signal := fst m.
Definition outcome {A : Type} (m : M A) : exn + A := snd m.

(** ** Python strings

    A string is a sequence of characters given by their code points; the
    model covers the code points below 256. *)

(** [c.isspace()] for a code point below 256. *)
Definition isspace (c : ascii) : bool :=
  let n := N_of_ascii c in
  ((9 <=? n) && (n <=? 13) || (28 <=? n) && (n <=? 32)
   || (n =? 133) || (n =? 160))%N.

Fixpoint lstrip (s : string) : string :=
  match s with
  | EmptyString => EmptyString
  | String c s' => if isspace c then lstrip s' else s
  end.

Fixpoint rstrip (s : string) : string :=
  match s with
  | EmptyString => EmptyString
  | String c s' =>
      match rstrip s' with
      | EmptyString => if isspace c then EmptyString else String c EmptyString
      | r => String c r
      end
  end.

(** [s.strip()] *)
Definition strip (s : string) : string := rstrip (lstrip s).

(** [s.replace(old, new)] for a one-character [old]. *)
Fixpoint replace (old : ascii) (new : string) (s : string) : string :=
  match s with
  | EmptyString => EmptyString
  | String c s' =>
      if Ascii.eqb c old then new +:+ replace old new s'
      else String c (replace old new s')
  end.

(** [s.startswith(p)] *)
Definition startswith (s p : string) : bool := String.prefix p s.

(** ** Python floats

    A Python [float] is an IEEE-754 binary64 number: 53 bits of precision,
    exponent of the infinities 1024, rounding to nearest, ties to even. *)

Definition prec : Z := 53.
Definition emax : Z := 1024.

Definition is_inf (f : spec_float) : bool :=
  match f with S754_infinity _ => true | _ => false end.

Definition is_zero (f : spec_float) : bool :=
  match f with S754_zero _ => true | _ => false end.

(** The float nearest to an integer. *)
Definition float_of_Z (z : Z) : spec_float := binary_normalize prec emax z 0 false.

(** Conversion of an [int] operand of a float operation. *)
Definition float_of_int (z : Z) : M spec_float :=
  let f := float_of_Z z in
  if is_inf f then raise (Exn OverflowError "int too large to convert to float")
  else mret f.

(** [x / y] on two [int]s: the correctly rounded quotient. *)
Definition int_truediv (x y : Z) : M spec_float :=
  if y =? 0 then raise (Exn ZeroDivisionError "division by zero")
  else
    let '(q, e, l) := SFdiv_core_binary prec emax (Z.abs x) 0 (Z.abs y) 0 in
    let f := binary_round_aux prec emax (xorb (x <? 0) (y <? 0)) q e l in
    if is_inf f
    then raise (Exn OverflowError "integer division result too large for a float")
    else mret f.

(** [f / g] on two [float]s. *)
Definition float_truediv (f g : spec_float) : M spec_float :=
  if is_zero g then raise (Exn ZeroDivisionError "float division by zero")
  else mret (SFdiv prec emax f g).

(** [a / b].  The result of a true division is always a float. *)
Definition truediv (a b : pyval) : M spec_float :=
  match a, b with
  | PyInt x, PyInt y => int_truediv x y
  | PyInt x, PyFloat g => f ← float_of_int x; float_truediv f g
  | PyFloat f, PyInt y => g ← float_of_int y; float_truediv f g
  | PyFloat f, PyFloat g => float_truediv f g
  | _, _ =>
      raise (Exn TypeError ("unsupported operand type(s) for /: '" +:+ type_name a
                            +:+ "' and '" +:+ type_name b +:+ "'"))
  end.

(** [f * n] for a float [f] and an [int] literal [n]. *)
Definition float_mul_int (f : spec_float) (n : Z) : spec_float :=
  SFmul prec emax f (float_of_Z n).

(** Truncation toward zero of a finite float. *)
Definition float_trunc (s : bool) (m : positive) (e : Z) : Z :=
  cond_Zopp s (match e with
               | Zneg p => Z.shiftr (Zpos m) (Zpos p)
               | _ => Z.shiftl (Zpos m) e
               end).

(** [int(f)] for a float [f]. *)
Definition int_of_float (f : spec_float) : M Z :=
  match f with
  | S754_nan => raise (Exn ValueError "cannot convert float NaN to integer")
  | S754_infinity _ =>
      raise (Exn OverflowError "cannot convert float infinity to integer")
  | S754_zero _ => mret 0
  | S754_finite s m e => mret (float_trunc s m e)
  end.

(** *** [float(s)] for a string

    The grammar is Python's: optional sign, then [inf], [infinity] or [nan]
    in any case, or a decimal number ([12], [12.], [.5], [1.5e-3]) whose
    digits may be grouped by single underscores.  The value is the decimal
    number rounded once to the nearest float. *)

Definition is_digit (c : ascii) : bool :=
  let n := N_of_ascii c in ((48 <=? n) && (n <=? 57))%N.

Definition digit_value (c : ascii) : Z := Z.of_N (N_of_ascii c) - 48.

Definition lower (c : ascii) : ascii :=
  let n := N_of_ascii c in
  if ((65 <=? n) && (n <=? 90))%N then ascii_of_N (n + 32) else c.

Fixpoint lower_string (s : string) : string :=
  match s with
  | EmptyString => EmptyString
  | String c s' => String (lower c) (lower_string s')
  end.

(** An underscore must stand between two digits; [prev] is the character
    before [s] (NUL at the start). *)
Fixpoint underscores_ok (prev : ascii) (s : string) : bool :=
  match s with
  | EmptyString => negb (Ascii.eqb prev "_")
  | String c s' =>
      (if Ascii.eqb c "_" then is_digit prev
       else if Ascii.eqb prev "_" then is_digit c else true)
      && underscores_ok c s'
  end.

(** Reads a run of digits: the number read so far, how many digits were
    read, and what follows. *)
Fixpoint digits (s : string) (acc n : Z) : Z * Z * string :=
  match s with
  | EmptyString => (acc, n, s)
  | String c s' =>
      if is_digit c then digits s' (10 * acc + digit_value c) (n + 1)
      else (acc, n, s)
  end.

Definition parse_sign (s : string) : bool * string :=
  match s with
  | String "-" s' => (true, s')
  | String "+" s' => (false, s')
  | _ => (false, s)
  end.

(** The exponent part, up to the end of the string. *)
Definition parse_exponent (s : string) : option Z :=
  match s with
  | EmptyString => Some 0
  | String c s' =>
      if Ascii.eqb (lower c) "e" then
        let '(neg, s'') := parse_sign s' in
        let '(v, n, rest) := digits s'' 0 0 in
        if (0 <? n) && String.eqb rest "" then Some (cond_Zopp neg v) else None
      else None
  end.

(** A decimal number [m * 10^e], as the pair [(m, e)]. *)
Definition parse_number (s : string) : option (Z * Z) :=
  let '(m1, n1, r1) := digits s 0 0 in
  let '(m2, n2, r2) :=
    match r1 with
    | String "." r => digits r m1 0
    | _ => (m1, 0, r1)
    end in
  if 0 <? n1 + n2 then
    match parse_exponent r2 with
    | Some x => Some (m2, x - n2)
    | None => None
    end
  else None.

(** The float nearest to [(-1)^neg * m * 10^e], for [m >= 0]. *)
Definition float_of_decimal (neg : bool) (m e : Z) : spec_float :=
  if m =? 0 then S754_zero neg
  else if 0 <=? e then binary_normalize prec emax (cond_Zopp neg (m * 10 ^ e)) 0 false
  else
    let '(q, e', l) := SFdiv_core_binary prec emax m 0 (10 ^ (- e)) 0 in
    binary_round_aux prec emax neg q e' l.

(** [float(s)]; the text of the [ValueError] is abbreviated. *)
Definition float_of_str (s : string) : M spec_float :=
  let s1 := strip s in
  if underscores_ok "000" s1 then
    let '(neg, body) := parse_sign (replace "_" "" s1) in
    let name := lower_string body in
    if String.eqb name "inf" || String.eqb name "infinity" then mret (S754_infinity neg)
    else if String.eqb name "nan" then mret S754_nan
    else
      match parse_number body with
      | Some (m, e) => mret (float_of_decimal neg m e)
      | None => raise (Exn ValueError "could not convert string to float")
      end
  else raise (Exn ValueError "could not convert string to float").

(** ** Python dictionaries and attribute access *)

(** [k in d] *)
Definition contains {V : Type} (d : gmap string V) (k : string) : bool :=
  match d !! k with Some _ => true | None => false end.

(** [d[k]]; [str(KeyError(k))] is the [repr] of the key. *)
Definition getitem {V : Type} (d : gmap string V) (k : string) : M V :=
  match d !! k with
  | Some v => mret v
  | None => raise (Exn KeyError ("'" +:+ k +:+ "'"))
  end.

(** [d.update(e)]: the entries of [e] replace those of [d]. *)
Definition update {V : Type} (e d : gmap string V) : gmap string V := e ∪ d.

(** [v == s] for a string literal [s]. *)
Definition eq_str (v : pyval) (s : string) : bool :=
  match v with
  | PyStr s' => String.eqb s' s
  | _ => false
  end.

(** [v.replace(old, new)]: only a [str] has the method. *)
Definition method_replace (v : pyval) (old : ascii) (new : string) : M string :=
  match v with
  | PyStr s => mret (replace old new s)
  | _ =>
      raise (Exn AttributeError
               ("'" +:+ type_name v +:+ "' object has no attribute 'replace'"))
  end.

(** [s.endswith(p)] for a one-character [p]. *)
Fixpoint endswith (s : string) (p : ascii) : bool :=
  match s with
  | EmptyString => false
  | String c EmptyString => Ascii.eqb c p
  | String _ s' => endswith s' p
  end.

(** [os.path.join(a, b)] of a POSIX system. *)
Definition os_path_join (a b : string) : string :=
  if startswith b "/" then b
  else if String.eqb a "" || endswith a "/" then a +:+ b
  else a +:+ "/" +:+ b.

(** ** class YTDLPLogger *)

Module YTDLPLogger.

(** The object holds the bound [emit] of the signal it was given. *)
Record t := { log_signal : string -> M unit }.

Definition debug (self : t) (msg : string) : M unit :=
  if startswith msg "[debug]" then mret tt
  else log_signal self msg.

Definition info (self : t) (msg : string) : M unit :=
  log_signal self msg.

Definition warning (self : t) (msg : string) : M unit :=
  log_signal self ("Warning: " +:+ msg).

Definition error (self : t) (msg : string) : M unit :=
  log_signal self ("Error: " +:+ msg).

End YTDLPLogger.

(** ** The external library

    What [YoutubeDL] does is not this program's code.  From the program's
    side a call into the library is a tree: the library returns, raises,
    or calls back one of the callables it found in the options and goes on
    according to how that call ended ([None]: it returned; [Some e]: it
    raised [e]).  A tree is finite: the call comes back. *)

Inductive callback :=
| ProgressHook (d : gmap string pyval)
| LoggerDebug (msg : string)
| LoggerInfo (msg : string)
| LoggerWarning (msg : string)
| LoggerError (msg : string).

Inductive behaviour :=
| Return
| Raise (e : exn)
| Call (c : callback) (k : option exn -> behaviour).

(** A [YoutubeDL] object: construction together with [__enter__], the
    [download] method, and [__exit__] (which returns [None]: it does not
    suppress an exception of the [with] body). *)
Record YoutubeDL := {
  ydl_init : behaviour;
  ydl_download : list string -> behaviour;
  ydl_exit : behaviour
}.

(** The values of the option dictionary. *)
Inductive optval :=
| OStr (s : string)
| OBool (b : bool)
| OHooks (hooks : list (gmap string pyval -> M unit))
| OLogger (logger : YTDLPLogger.t)
| OPostprocessors (pps : list (gmap string string)).

(** [for ph in hooks: ph(d)] *)
Fixpoint call_hooks (hooks : list (gmap string pyval -> M unit))
    (d : gmap string pyval) : M unit :=
  match hooks with
  | [] => mret tt
  | ph :: rest => ph d;; call_hooks rest d
  end.

(** A callback reaches the callables stored under ['progress_hooks'] and
    ['logger']. *)
Definition run_callback (opts : gmap string optval) (c : callback) : M unit :=
  match c with
  | ProgressHook d =>
      match opts !! "progress_hooks" with
      | Some (OHooks hooks) => call_hooks hooks d
      | _ => mret tt
      end
  | LoggerDebug msg =>
      match opts !! "logger" with
      | Some (OLogger l) => YTDLPLogger.debug l msg
      | _ => mret tt
      end
  | LoggerInfo msg =>
      match opts !! "logger" with
      | Some (OLogger l) => YTDLPLogger.info l msg
      | _ => mret tt
      end
  | LoggerWarning msg =>
      match opts !! "logger" with
      | Some (OLogger l) => YTDLPLogger.warning l msg
      | _ => mret tt
      end
  | LoggerError msg =>
      match opts !! "logger" with
      | Some (OLogger l) => YTDLPLogger.error l msg
      | _ => mret tt
      end
  end.

(** How a computation ended, as the library sees it. *)
Definition raised {A : Type} (r : exn + A) : option exn :=
  match r with inl e => Some e | inr _ => None end.

(** Running a library call. *)
Fixpoint perform (opts : gmap string optval) (b : behaviour) : M unit :=
  match b with
  | Return => mret tt
  | Raise e => raise e
  | Call c k =>
      let '(t, r) := run_callback opts c in
      let '(t', r') := perform opts (k (raised r)) in
      (t ++ t', r')
  end.

(** [with mgr: body], where [exit] is [mgr.__exit__]: it runs however
    the body ended; what it raises replaces what the body raised. *)
Definition with_ (body exit : M unit) : M unit :=
  let '(t, r) := body in
  let '(t', r') := exit in
  (t ++ t', match r' with inl e' => inl e' | inr _ => r end).

(** ** class DownloadWorker *)

Module DownloadWorker.

Record t := { url : string; is_mp3 : bool; output_dir : string }.

(** The progress hook, a closure of [run] over the worker's signals. *)
Definition hook (d : gmap string pyval) : M unit :=
  status ← getitem d "status";
  if eq_str status "downloading" then
    if contains d "downloaded_bytes" && contains d "total_bytes" then
      a ← getitem d "downloaded_bytes";
      b ← getitem d "total_bytes";
      q ← truediv a b;
      let percent := float_mul_int q 100 in
      n ← int_of_float percent;
      emit (progress n)
    else if contains d "downloaded_bytes" && contains d "total_bytes_estimate" then
      a ← getitem d "downloaded_bytes";
      b ← getitem d "total_bytes_estimate";
      q ← truediv a b;
      let percent := float_mul_int q 100 in
      n ← int_of_float percent;
      emit (progress n)
    else if contains d "_percent_str" then
      v ← getitem d "_percent_str";
      replaced ← method_replace v "%" "";
      let percent_str := strip replaced in
      try_except
        (f ← float_of_str percent_str;
         n ← int_of_float f;
         emit (progress n))
        is_ValueError_or_AttributeError
        (fun _ => mret tt)
    else mret tt
  else
    status ← getitem d "status";
    if eq_str status "finished" then
      emit (progress 100);;
      emit (log "Download finished")
    else mret tt.

(** The logger handed to the library: [YTDLPLogger(self.log)]. *)
Definition logger : YTDLPLogger.t :=
  {| YTDLPLogger.log_signal := fun msg => emit (log msg) |}.

(** The option dictionary before the mode is looked at. *)
Definition base_opts (self : t) : gmap string optval :=
  {[ "outtmpl" := OStr (os_path_join (output_dir self) "%(title)s.%(ext)s");
     "progress_hooks" := OHooks [hook];
     "logger" := OLogger logger;
     "verbose" := OBool true ]}.

Definition mp3_opts : gmap string optval :=
  {[ "format" := OStr "bestaudio/best";
     "postprocessors" :=
       OPostprocessors
         [ {[ "key" := "FFmpegExtractAudio";
              "preferredcodec" := "mp3";
              "preferredquality" := "320" ]} ] ]}.

Definition mp4_opts : gmap string optval :=
  {[ "format" :=
       OStr "bestvideo[ext=mp4][vcodec^=avc1]+bestaudio[ext=m4a]/bestvideo[ext=mp4]+bestaudio/best[ext=mp4]/best";
     "merge_output_format" := OStr "mp4";
     "postprocessors" :=
       OPostprocessors
         [ {[ "key" := "FFmpegVideoConvertor";
              "preferedformat" := "mp4" ]} ] ]}.

(** [ydl_opts] as it stands when [YoutubeDL] is constructed. *)
Definition ydl_opts (self : t) : gmap string optval :=
  if is_mp3 self then update mp3_opts (base_opts self)
  else update mp4_opts (base_opts self).

(** The body of the [try] statement. *)
Definition guarded (self : t) (library : gmap string optval -> YoutubeDL) : M unit :=
  let opts := ydl_opts self in
  let ydl := library opts in
  perform opts (ydl_init ydl);;
  with_
    (emit (log "Starting download...");;
     perform opts (ydl_download ydl [url self]))
    (perform opts (ydl_exit ydl)).

(** [run]; [library] is the imported class [YoutubeDL], which builds an
    object from the options. *)
Definition run (self : t) (library : gmap string optval -> YoutubeDL) : M unit :=
  (if is_mp3 self then mret tt else emit (log "Mode: MP4 (H.264 / AVC)"));;
  try_except (guarded self library) is_Exception
    (fun e => emit (log ("Exception: " +:+ exn_msg e)));;
  emit finished.

End DownloadWorker.

(** ** class MainWindow *)

Module MainWindow.

(** The widgets' state that the methods read and write: the text of the
    two line edits, whether the MP3 radio button is checked, the value of
    the progress bar, the paragraphs of the log box, whether the download
    button is enabled, and the [worker] attribute. *)
Record t := {
  url_input : string;
  output_path : string;
  mp3_radio : bool;
  progress_bar : Z;
  log_box : list string;
  dl_button : bool;
  worker : option DownloadWorker.t
}.

(** The window [__init__] builds: empty line edits, MP4 checked, a
    progress bar without a value (Qt's -1), an empty log, the button
    enabled, no worker. *)
Definition init : t :=
  {| url_input := ""; output_path := ""; mp3_radio := false;
     progress_bar := -1; log_box := []; dl_button := true; worker := None |}.

(** [QProgressBar.setValue] with the default range 0..100: a value outside
    the range leaves the bar as it is. *)
Definition setValue (current value : Z) : Z :=
  if (0 <=? value) && (value <=? 100) then value else current.

(** [self.log_box.append(text)] *)
Definition log_box_append (self : t) (text : string) : t :=
  {| url_input := url_input self; output_path := output_path self;
     mp3_radio := mp3_radio self; progress_bar := progress_bar self;
     log_box := log_box self ++ [text]; dl_button := dl_button self;
     worker := worker self |}.

(** [start_download] returns the window and the threads it started
    ([self.worker.start()]). *)
Definition start_download (self : t) : t * list DownloadWorker.t :=
  let url := strip (url_input self) in
  if String.eqb url "" then (log_box_append self "Please enter a URL", [])
  else
    let output_dir := strip (output_path self) in
    if String.eqb output_dir ""
    then (log_box_append self "Please select an output folder", [])
    else
      let is_mp3 := mp3_radio self in
      let w := {| DownloadWorker.url := url;
                  DownloadWorker.is_mp3 := is_mp3;
                  DownloadWorker.output_dir := output_dir |} in
      ({| url_input := url_input self; output_path := output_path self;
          mp3_radio := mp3_radio self;
          progress_bar := setValue (progress_bar self) 0;
          log_box := [];
          dl_button := false;
          worker := Some w |},
       [w]).

Definition download_finished (self : t) : t :=
  {| url_input := url_input self; output_path := output_path self;
     mp3_radio := mp3_radio self; progress_bar := progress_bar self;
     log_box := log_box self ++ ["Ready"]; dl_button := true;
     worker := worker self |}.

(** [folder] is what the directory dialog returned (empty when the user
    cancelled). *)
Definition choose_output_dir (folder : string) (self : t) : t :=
  if String.eqb folder "" then self
  else
    {| url_input := url_input self; output_path := folder;
       mp3_radio := mp3_radio self; progress_bar := progress_bar self;
       log_box := log_box self; dl_button := dl_button self;
       worker := worker self |}.

End MainWindow.

(** ** Notions used in the statements *)

(** The expression [int((a / b) * 100)] of the hook. *)
Definition percent (a b : pyval) : M Z :=
  q ← truediv a b;
  int_of_float (float_mul_int q 100).

(** A computation ends in a way [except Exception] copes with: it returns,
    or raises an instance of [Exception]. *)
Definition catchable {A : Type} (m : M A) : bool :=
  match outcome m with
  | inl e => is_Exception e
  | inr _ => true
  end.

(** A computation that does not emit [finished]. *)
Definition quiet {A : Type} (m : M A) : Prop :=
  Forall (fun s => s <> finished) (trace m).

(** How often [finished] occurs among signals. *)
Fixpoint count_finished (signals : list signal) : nat :=
  match signals with
  | [] => 0%nat
  | finished :: rest => S (count_finished rest)
  | _ :: rest => count_finished rest
  end.

(** The library call [b] hands the event [d] to the progress hooks, after
    callbacks that returned, and lets through whatever the hooks raise. *)
Inductive hands_to_hook (opts : gmap string optval) (d : gmap string pyval) :
  behaviour -> Prop :=
| hands_now (k : option exn -> behaviour) :
    (forall e, k (Some e) = Raise e) ->
    hands_to_hook opts d (Call (ProgressHook d) k)
| hands_later (c : callback) (k : option exn -> behaviour) :
    outcome (run_callback opts c) = inr tt ->
    hands_to_hook opts d (k None) ->
    hands_to_hook opts d (Call c k).

(** A library call that itself raises instances of [Exception] only,
    however the callbacks ended before, provided they raised nothing else. *)
Inductive raises_Exceptions_only : behaviour -> Prop :=
| reo_return : raises_Exceptions_only Return
| reo_raise (e : exn) :
    is_Exception e = true -> raises_Exceptions_only (Raise e)
| reo_call (c : callback) (k : option exn -> behaviour) :
    raises_Exceptions_only (k None) ->
    (forall e, is_Exception e = true -> raises_Exceptions_only (k (Some e))) ->
    raises_Exceptions_only (Call c k).

(** The three library calls of a job, run with the options of the job. *)
Definition init_call (w : DownloadWorker.t)
    (library : gmap string optval -> YoutubeDL) : M unit :=
  perform (DownloadWorker.ydl_opts w) (ydl_init (library (DownloadWorker.ydl_opts w))).

Definition download_call (w : DownloadWorker.t)
    (library : gmap string optval -> YoutubeDL) : M unit :=
  perform (DownloadWorker.ydl_opts w)
    (ydl_download (library (DownloadWorker.ydl_opts w)) [DownloadWorker.url w]).

Definition exit_call (w : DownloadWorker.t)
    (library : gmap string optval -> YoutubeDL) : M unit :=
  perform (DownloadWorker.ydl_opts w) (ydl_exit (library (DownloadWorker.ydl_opts w))).

(** The strings that are empty after trimming are those of blanks. *)
Fixpoint all_space (s : string) : bool :=
  match s with
  | EmptyString => true
  | String c s' => isspace c && all_space s'
  end.

(** The line that [run] logs first: nothing for MP3, the mode for MP4. *)
Definition mode_banner (w : DownloadWorker.t) : list signal :=
  if DownloadWorker.is_mp3 w then [] else [log "Mode: MP4 (H.264 / AVC)"].

(** The alternatives of a format selector are separated by [/]. *)
Fixpoint split_on (sep : ascii) (s : string) : list string :=
  match s with
  | EmptyString => [EmptyString]
  | String c s' =>
      if Ascii.eqb c sep then EmptyString :: split_on sep s'
      else
        match split_on sep s' with
        | [] => [String c EmptyString]
        | first :: rest => String c first :: rest
        end
  end.

(** The file system, as far as a statement about directories needs it; no
    method of the program consults it. *)
Record filesystem := {
  is_dir : string -> bool;
  is_writable : string -> bool
}.

(** ** Concrete events, library calls and windows *)

Definition event_total : gmap string pyval :=
  {[ "status" := PyStr "downloading";
     "downloaded_bytes" := PyInt 50;
     "total_bytes" := PyInt 100 ]}.

Definition event_estimate : gmap string pyval :=
  {[ "status" := PyStr "downloading";
     "downloaded_bytes" := PyInt 1;
     "total_bytes_estimate" := PyInt 4 ]}.

Definition event_percent_str : gmap string pyval :=
  {[ "status" := PyStr "downloading"; "_percent_str" := PyStr "37.5%" ]}.

Definition event_unknown : gmap string pyval :=
  {[ "status" := PyStr "downloading"; "_percent_str" := PyStr "Unknown %" ]}.

Definition event_bare : gmap string pyval :=
  {[ "status" := PyStr "downloading" ]}.

Definition event_zero_total : gmap string pyval :=
  {[ "status" := PyStr "downloading";
     "downloaded_bytes" := PyInt 50;
     "total_bytes" := PyInt 0 ]}.

Definition event_inf : gmap string pyval :=
  {[ "status" := PyStr "downloading"; "_percent_str" := PyStr "inf%" ]}.

Definition event_finished : gmap string pyval :=
  {[ "status" := PyStr "finished" ]}.

Definition worker_mp4 : DownloadWorker.t :=
  {| DownloadWorker.url := "https://example.com/watch?v=1";
     DownloadWorker.is_mp3 := false;
     DownloadWorker.output_dir := "/home/u/Videos" |}.

Definition worker_mp3 : DownloadWorker.t :=
  {| DownloadWorker.url := "https://example.com/watch?v=1";
     DownloadWorker.is_mp3 := true;
     DownloadWorker.output_dir := "/home/u/Music" |}.

(** A library that does not handle what a callback raises: it goes on
    with [next] when the callback returned. *)
Definition propagate (next : behaviour) (r : option exn) : behaviour :=
  match r with
  | Some e => Raise e
  | None => next
  end.

(** A download that succeeds. *)
Definition library_ok (opts : gmap string optval) : YoutubeDL :=
  {| ydl_init := Call (LoggerDebug "[debug] Command-line config: []") (propagate Return);
     ydl_download := fun _ =>
       Call (LoggerDebug "[download] Destination: a.mp4")
         (propagate (Call (ProgressHook event_total)
            (propagate (Call (ProgressHook event_finished) (propagate Return)))));
     ydl_exit := Return |}.

(** A download that fails the way the library reports failures. *)
Definition download_error : exn :=
  Exn (OtherException "DownloadError") "ERROR: Unsupported URL".

Definition library_failing (opts : gmap string optval) : YoutubeDL :=
  {| ydl_init := Return;
     ydl_download := fun _ =>
       Call (LoggerError "ERROR: Unsupported URL") (propagate (Raise download_error));
     ydl_exit := Return |}.

(** Downloads ended by exceptions that are no instances of [Exception]. *)
Definition library_interrupted (opts : gmap string optval) : YoutubeDL :=
  {| ydl_init := Return;
     ydl_download := fun _ => Raise (Exn KeyboardInterrupt "");
     ydl_exit := Return |}.

Definition library_exiting (opts : gmap string optval) : YoutubeDL :=
  {| ydl_init := Return;
     ydl_download := fun _ => Raise (Exn SystemExit "1");
     ydl_exit := Return |}.

(** A download that reports a total of zero bytes. *)
Definition library_zero_total (opts : gmap string optval) : YoutubeDL :=
  {| ydl_init := Return;
     ydl_download := fun _ =>
       Call (LoggerDebug "[download] Destination: a.mp4")
         (propagate (Call (ProgressHook event_zero_total) (propagate Return)));
     ydl_exit := Return |}.

(** A window with a URL typed in and a folder chosen. *)
Definition window_ready : MainWindow.t :=
  {| MainWindow.url_input := "  https://example.com/watch?v=1 ";
     MainWindow.output_path := "/home/u/Videos";
     MainWindow.mp3_radio := true;
     MainWindow.progress_bar := 100;
     MainWindow.log_box := ["Download finished"; "Ready"];
     MainWindow.dl_button := true;
     MainWindow.worker := None |}.

(** The same window with only blanks in the URL field. *)
Definition window_blank_url : MainWindow.t :=
  {| MainWindow.url_input := "   ";
     MainWindow.output_path := "/home/u/Videos";
     MainWindow.mp3_radio := true;
     MainWindow.progress_bar := 100;
     MainWindow.log_box := ["Download finished"; "Ready"];
     MainWindow.dl_button := true;
     MainWindow.worker := None |}.

(** Windows whose output field holds a blank, and a folder whose name
    ends in a blank. *)
Definition window_blank_dir : MainWindow.t :=
  {| MainWindow.url_input := "https://example.com/watch?v=1";
     MainWindow.output_path := " ";
     MainWindow.mp3_radio := false;
     MainWindow.progress_bar := -1;
     MainWindow.log_box := [];
     MainWindow.dl_button := true;
     MainWindow.worker := None |}.

Definition window_trailing_blank : MainWindow.t :=
  {| MainWindow.url_input := "https://example.com/watch?v=1";
     MainWindow.output_path := "/home/u/Videos ";
     MainWindow.mp3_radio := false;
     MainWindow.progress_bar := -1;
     MainWindow.log_box := [];
     MainWindow.dl_button := true;
     MainWindow.worker := None |}.

(** The fresh window after a URL was typed and the dialog returned
    [/usr]. *)
Definition window_usr : MainWindow.t :=
  MainWindow.choose_output_dir "/usr"
    {| MainWindow.url_input := "https://example.com/watch?v=1";
       MainWindow.output_path := MainWindow.output_path MainWindow.init;
       MainWindow.mp3_radio := MainWindow.mp3_radio MainWindow.init;
       MainWindow.progress_bar := MainWindow.progress_bar MainWindow.init;
       MainWindow.log_box := MainWindow.log_box MainWindow.init;
       MainWindow.dl_button := MainWindow.dl_button MainWindow.init;
       MainWindow.worker := MainWindow.worker MainWindow.init |}.

(** A file system in which [/usr] is a directory that cannot be written,
    and one in which it is gone. *)
Definition fs_read_only : filesystem :=
  {| is_dir := fun p => String.eqb p "/usr"; is_writable := fun _ => false |}.

Definition fs_gone : filesystem :=
  {| is_dir := fun _ => false; is_writable := fun _ => false |}.

(** The job that [window_ready] starts. *)
Definition worker_mp3' : DownloadWorker.t :=
  {| DownloadWorker.url := "https://example.com/watch?v=1";
     DownloadWorker.is_mp3 := true;
     DownloadWorker.output_dir := "/home/u/Videos" |}.

(** ** Further notions *)

(** Whether a character occurs in a string. *)
Fixpoint has_char (c : ascii) (s : string) : bool :=
  match s with
  | EmptyString => false
  | String c' s' => Ascii.eqb c' c || has_char c s'
  end.

(** The exceptions of the arithmetic [int(a / b * 100)]. *)
Definition arith_error (e : exn) : bool :=
  match exn_cls e with
  | ZeroDivisionError | OverflowError | TypeError | ValueError => true
  | _ => false
  end.

(** [int] and [float] are the numbers among the values. *)
Definition is_number (v : pyval) : bool :=
  match v with
  | PyInt _ | PyFloat _ => true
  | _ => false
  end.

(** A library whose construction fails, and one whose [__exit__] fails
    after a failed download. *)
Definition library_bad_options (opts : gmap string optval) : YoutubeDL :=
  {| ydl_init :=
       Call (LoggerWarning "unknown option")
         (propagate (Raise (Exn ValueError "invalid options")));
     ydl_download := fun _ => Call (ProgressHook event_total) (propagate Return);
     ydl_exit := Return |}.

Definition library_bad_exit (opts : gmap string optval) : YoutubeDL :=
  {| ydl_init := Return;
     ydl_download := fun _ => Raise download_error;
     ydl_exit := Raise (Exn (OtherException "OSError") "cannot save cookies") |}.

(** ** The thread

    [worker.start()] makes Qt run [run] in a thread of its own.  When
    [run] is over, whether it returned or ended with an exception, Qt
    emits the thread's signal [finished()].  The class attribute
    [finished = Signal()] of [DownloadWorker] has the name and the
    signature of that signal of [QThread], and is that signal: what is
    connected to [worker.finished] receives the emit of [run] and the one
    of Qt.  These are the signals of the thread, in order. *)
Definition thread_signals (w : DownloadWorker.t)
    (library : gmap string optval -> YoutubeDL) : list signal :=
  trace (DownloadWorker.run w library) ++ [finished].

(** * Properties *)

(** ** The effect monad *)

Lemma bind_ret {A B : Type} (a : A) (f : A -> M B) : (mret a ≫= f) = f a.
Proof. unfold mbind, M_bind, mret, M_ret. destruct (f a) as [t r]. reflexivity. Qed.

Lemma bind_value {A B : Type} (a : A) (f : A -> M B) :
  ((([], inr a) : M A) ≫= f) = f a.
Proof. apply bind_ret. Qed.

Lemma bind_raise {A B : Type} (e : exn) (f : A -> M B) : (raise e ≫= f) = raise e.
Proof. reflexivity. Qed.

Lemma bind_assoc {A B C : Type} (m : M A) (f : A -> M B) (g : B -> M C) :
  ((m ≫= f) ≫= g) = (m ≫= fun a => f a ≫= g).
Proof.
  unfold mbind, M_bind. destruct m as [t [e | a]]; [reflexivity |].
  destruct (f a) as [t1 [e1 | b]]; [reflexivity |].
  destruct (g b) as [t2 r2]. by rewrite app_assoc.
Qed.

Lemma trace_bind {A B : Type} (m : M A) (f : A -> M B) :
  trace (m ≫= f) =
  trace m ++ match outcome m with inr a => trace (f a) | inl _ => [] end.
Proof.
  unfold mbind, M_bind, trace, outcome. destruct m as [t [e | a]]; simpl.
  - by rewrite app_nil_r.
  - by destruct (f a).
Qed.

Lemma outcome_bind {A B : Type} (m : M A) (f : A -> M B) :
  outcome (m ≫= f) =
  match outcome m with inr a => outcome (f a) | inl e => inl e end.
Proof.
  unfold mbind, M_bind, outcome. destruct m as [t [e | a]]; simpl; [done |].
  by destruct (f a).
Qed.

Lemma M_eta {A : Type} (m : M A) : m = (trace m, outcome m).
Proof. by destruct m. Qed.

(** ** The logger adapter *)

Lemma startswith_spec (s p : string) :
  startswith s p = true <-> exists rest, s = p +:+ rest.
Proof.
  unfold startswith. revert s.
  induction p as [| c p IH]; intros s.
  - split; [intros _; by exists s | by destruct s].
  - destruct s as [| c' s]; simpl.
    + split; [done | intros [rest H]; discriminate H].
    + destruct (ascii_dec c c') as [-> | Hne].
      * rewrite IH. split; intros [rest H]; exists rest.
        -- by rewrite H.
        -- by injection H.
      * split; [done |]. intros [rest H]. injection H as H1 _. by destruct Hne.
Qed.

(** C2, as the code has it: a debug-level message that begins with
    [[debug]] is dropped, and every other debug-level message is
    forwarded unchanged. *)
Theorem debug_drops_only_debug_prefix :
  (forall rest : string,
     YTDLPLogger.debug DownloadWorker.logger ("[debug]" +:+ rest) = ([], inr tt))
  /\ (forall msg : string,
        (forall rest, msg <> "[debug]" +:+ rest) ->
        YTDLPLogger.debug DownloadWorker.logger msg = ([log msg], inr tt)).
Proof.
  split.
  - intros rest. unfold YTDLPLogger.debug.
    replace (startswith ("[debug]" +:+ rest) "[debug]") with true; [done |].
    symmetry. apply startswith_spec. by exists rest.
  - intros msg Hne. unfold YTDLPLogger.debug.
    destruct (startswith msg "[debug]") eqn:Hp; [| done].
    apply startswith_spec in Hp as [rest ->]. by destruct (Hne rest).
Qed.

(** A progress line of the library, sent to the debug level, is forwarded. *)
Lemma debug_drops_only_debug_prefix_witness :
  YTDLPLogger.debug DownloadWorker.logger "[download] 100% of 3.2MiB"
  = ([log "[download] 100% of 3.2MiB"], inr tt).
Proof.
  apply (proj2 debug_drops_only_debug_prefix).
  intros rest H. discriminate H.
Defined.

(** C2, as stated, fails: the debug-level call with the message
    [[download] Destination: a.mp4] forwards that line. *)
Lemma debug_forwards_plain_message :
  YTDLPLogger.debug DownloadWorker.logger "[download] Destination: a.mp4"
  = ([log "[download] Destination: a.mp4"], inr tt).
Proof. reflexivity. Qed.

(** C3: a warning is forwarded as [Warning: ] followed by the message, an
    error as [Error: ] followed by the message, an info message as it
    is; the warning [disk low] is forwarded as [Warning: disk low]. *)
Theorem logger_forwards_with_label (m : string) :
  YTDLPLogger.warning DownloadWorker.logger m = ([log ("Warning: " +:+ m)], inr tt)
  /\ YTDLPLogger.error DownloadWorker.logger m = ([log ("Error: " +:+ m)], inr tt)
  /\ YTDLPLogger.info DownloadWorker.logger m = ([log m], inr tt)
  /\ YTDLPLogger.warning DownloadWorker.logger "disk low"
     = ([log "Warning: disk low"], inr tt).
Proof. repeat split. Qed.

(** ** The progress hook *)

Lemma truediv_pure (a b : pyval) : trace (truediv a b) = [].
Proof.
  destruct a as [| x | f | s], b as [| y | g | s']; try reflexivity; simpl.
  - unfold int_truediv. destruct (y =? 0); [done |].
    destruct (SFdiv_core_binary _ _ _ _ _ _) as [[q e] l].
    by destruct (is_inf _).
  - unfold float_of_int. destruct (is_inf (float_of_Z x)); [done |].
    rewrite bind_ret. unfold float_truediv. by destruct (is_zero g).
  - unfold float_of_int. destruct (is_inf (float_of_Z y)); [done |].
    rewrite bind_ret. unfold float_truediv. by destruct (is_zero _).
  - unfold float_truediv. by destruct (is_zero g).
Qed.

Lemma int_of_float_pure (f : spec_float) : trace (int_of_float f) = [].
Proof. by destruct f. Qed.

Lemma float_of_str_pure (s : string) : trace (float_of_str s) = [].
Proof.
  unfold float_of_str. destruct (underscores_ok _ _); [| done].
  destruct (parse_sign _) as [neg body].
  destruct (_ || _); [done |]. destruct (String.eqb _ "nan"); [done |].
  by destruct (parse_number body) as [[m e] |].
Qed.

Lemma percent_pure (a b : pyval) : trace (percent a b) = [].
Proof.
  unfold percent. rewrite trace_bind, truediv_pure. simpl.
  destruct (outcome (truediv a b)); [done | apply int_of_float_pure].
Qed.

(** [float(s)] raises nothing but [ValueError]. *)
Lemma float_of_str_raises (s : string) (e : exn) :
  outcome (float_of_str s) = inl e -> exn_cls e = ValueError.
Proof.
  unfold float_of_str. destruct (underscores_ok _ _); [| by intros [= <-]].
  destruct (parse_sign _) as [neg body].
  destruct (_ || _); [done |]. destruct (String.eqb _ "nan"); [done |].
  destruct (parse_number body) as [[m x] |]; [done | by intros [= <-]].
Qed.

(** The first source of the percentage: both byte counts are there. *)
Lemma hook_total (d : gmap string pyval) (a b : pyval) :
  d !! "status" = Some (PyStr "downloading") ->
  d !! "downloaded_bytes" = Some a ->
  d !! "total_bytes" = Some b ->
  DownloadWorker.hook d = (n ← percent a b; emit (progress n)).
Proof.
  intros Hs Ha Hb. unfold DownloadWorker.hook, getitem, contains.
  rewrite Hs, Ha, Hb. rewrite bind_ret. simpl eq_str. cbv iota.
  simpl andb. cbv iota. rewrite !bind_ret. unfold percent. by rewrite bind_assoc.
Qed.

(** The second source: the total is missing, its estimate is there. *)
Lemma hook_estimate (d : gmap string pyval) (a b : pyval) :
  d !! "status" = Some (PyStr "downloading") ->
  d !! "downloaded_bytes" = Some a ->
  d !! "total_bytes" = None ->
  d !! "total_bytes_estimate" = Some b ->
  DownloadWorker.hook d = (n ← percent a b; emit (progress n)).
Proof.
  intros Hs Ha Hb He. unfold DownloadWorker.hook, getitem, contains.
  rewrite Hs, Ha, Hb, He. rewrite bind_ret. simpl eq_str. cbv iota.
  simpl andb. cbv iota. rewrite !bind_ret. unfold percent. by rewrite bind_assoc.
Qed.

(** The third source: neither pair of byte counts is there, the percent
    string is. *)
Lemma hook_percent_str (d : gmap string pyval) (v : pyval) :
  d !! "status" = Some (PyStr "downloading") ->
  contains d "downloaded_bytes" && contains d "total_bytes" = false ->
  contains d "downloaded_bytes" && contains d "total_bytes_estimate" = false ->
  d !! "_percent_str" = Some v ->
  DownloadWorker.hook d =
    (replaced ← method_replace v "%" "";
     try_except
       (f ← float_of_str (strip replaced);
        n ← int_of_float f;
        emit (progress n))
       is_ValueError_or_AttributeError
       (fun _ => mret tt)).
Proof.
  intros Hs H1 H2 Hp. unfold DownloadWorker.hook, getitem, contains in *.
  rewrite Hs, bind_ret. simpl eq_str. cbv iota.
  rewrite H1, H2, Hp. by rewrite bind_ret.
Qed.

(** No source at all: the hook does nothing. *)
Lemma hook_no_source (d : gmap string pyval) :
  d !! "status" = Some (PyStr "downloading") ->
  contains d "downloaded_bytes" && contains d "total_bytes" = false ->
  contains d "downloaded_bytes" && contains d "total_bytes_estimate" = false ->
  d !! "_percent_str" = None ->
  DownloadWorker.hook d = ([], inr tt).
Proof.
  intros Hs H1 H2 Hp. unfold DownloadWorker.hook, getitem, contains in *.
  rewrite Hs, bind_ret. simpl eq_str. cbv iota.
  by rewrite H1, H2, Hp.
Qed.

(** C1, as the code has it.  For a [downloading] event the percentage
    comes from the first source that is there.  (1) With
    [downloaded_bytes] and [total_bytes]: when [int(a / b * 100)] has a
    value it is the one percentage emitted; when it raises (zero divisor,
    an operand that is no number, a result that is no finite number)
    nothing is emitted and the exception leaves the hook.  (2) Without
    [total_bytes], the same with [total_bytes_estimate].  (3) Otherwise,
    with a string under [_percent_str]: the string without its [%] and
    surrounding blanks is read as a float; the integer part of a finite
    value is emitted; a string that is no float, or that reads as NaN, is
    dropped and the hook returns.  (4) With no source nothing is
    emitted. *)
Theorem hook_percent_priority (d : gmap string pyval) :
  d !! "status" = Some (PyStr "downloading") ->
  (forall a b,
     d !! "downloaded_bytes" = Some a -> d !! "total_bytes" = Some b ->
     (forall n, outcome (percent a b) = inr n ->
                DownloadWorker.hook d = ([progress n], inr tt))
     /\ (forall e, outcome (percent a b) = inl e ->
                   DownloadWorker.hook d = ([], inl e)))
  /\ (forall a b,
        d !! "downloaded_bytes" = Some a -> d !! "total_bytes" = None ->
        d !! "total_bytes_estimate" = Some b ->
        (forall n, outcome (percent a b) = inr n ->
                   DownloadWorker.hook d = ([progress n], inr tt))
        /\ (forall e, outcome (percent a b) = inl e ->
                      DownloadWorker.hook d = ([], inl e)))
  /\ (forall s,
        contains d "downloaded_bytes" && contains d "total_bytes" = false ->
        contains d "downloaded_bytes" && contains d "total_bytes_estimate" = false ->
        d !! "_percent_str" = Some (PyStr s) ->
        let text := strip (replace "%" "" s) in
        (forall f n,
           outcome (float_of_str text) = inr f ->
           outcome (int_of_float f) = inr n ->
           DownloadWorker.hook d = ([progress n], inr tt))
        /\ ((exists e, outcome (float_of_str text) = inl e)
            \/ outcome (float_of_str text) = inr S754_nan ->
            DownloadWorker.hook d = ([], inr tt)))
  /\ (contains d "downloaded_bytes" && contains d "total_bytes" = false ->
      contains d "downloaded_bytes" && contains d "total_bytes_estimate" = false ->
      d !! "_percent_str" = None ->
      DownloadWorker.hook d = ([], inr tt)).
Proof.
  intros Hs.
  assert (Hemit : forall a b,
            DownloadWorker.hook d = (n ← percent a b; emit (progress n)) ->
            (forall n, outcome (percent a b) = inr n ->
                       DownloadWorker.hook d = ([progress n], inr tt))
            /\ (forall e, outcome (percent a b) = inl e ->
                          DownloadWorker.hook d = ([], inl e))).
  { intros a b ->.
    split; intros x Hx; rewrite (M_eta (percent a b)), percent_pure, Hx;
      reflexivity. }
  repeat apply conj.
  - intros a b Ha Hb. by apply Hemit, hook_total.
  - intros a b Ha Hb He. by apply Hemit, hook_estimate.
  - intros s H1 H2 Hp text.
    rewrite (hook_percent_str d (PyStr s) Hs H1 H2 Hp). simpl method_replace.
    rewrite bind_ret. fold text.
    split.
    + intros f n Hf Hn.
      rewrite (M_eta (float_of_str text)), (float_of_str_pure text), Hf, bind_value.
      rewrite (M_eta (int_of_float f)), int_of_float_pure, Hn. reflexivity.
    + intros [[e He] | Hnan];
        rewrite (M_eta (float_of_str text)), (float_of_str_pure text).
      * rewrite He. pose proof (float_of_str_raises text e He) as Hc.
        unfold try_except, is_ValueError_or_AttributeError. simpl.
        by rewrite Hc.
      * by rewrite Hnan.
  - intros H1 H2 Hp. by apply hook_no_source.
Qed.

(** The events of the specification: 50 of 100 bytes, 1 of an estimated 4
    bytes, the string [37.5%], an unreadable string, no field at all. *)
Lemma hook_percent_priority_witness :
  DownloadWorker.hook event_total = ([progress 50], inr tt)
  /\ DownloadWorker.hook event_estimate = ([progress 25], inr tt)
  /\ DownloadWorker.hook event_percent_str = ([progress 37], inr tt)
  /\ DownloadWorker.hook event_unknown = ([], inr tt)
  /\ DownloadWorker.hook event_bare = ([], inr tt).
Proof.
  repeat apply conj.
  - destruct (hook_percent_priority event_total) as (H & _); [reflexivity |].
    apply (H (PyInt 50) (PyInt 100)); reflexivity.
  - destruct (hook_percent_priority event_estimate) as (_ & H & _); [reflexivity |].
    apply (H (PyInt 1) (PyInt 4)); reflexivity.
  - destruct (hook_percent_priority event_percent_str) as (_ & _ & H & _);
      [reflexivity |].
    apply (H "37.5%") with (f := S754_finite false 5277655813324800 (-47));
      reflexivity.
  - destruct (hook_percent_priority event_unknown) as (_ & _ & H & _);
      [reflexivity |].
    apply (H "Unknown %"); try reflexivity.
    left. eexists. reflexivity.
  - destruct (hook_percent_priority event_bare) as (_ & _ & _ & H);
      [reflexivity |].
    apply H; reflexivity.
Defined.

(** C1, as stated, fails twice.  With [downloaded_bytes = 50] and
    [total_bytes = 0] no percentage is emitted: the division raises.  With
    [_percent_str = "inf%"] the string reads as a number, infinity, yet
    neither is a percentage emitted nor is the string dropped silently:
    [int] raises [OverflowError], which the hook does not catch. *)
Lemma hook_percent_counterexample :
  DownloadWorker.hook event_zero_total
  = ([], inl (Exn ZeroDivisionError "division by zero"))
  /\ DownloadWorker.hook event_inf
     = ([], inl (Exn OverflowError "cannot convert float infinity to integer")).
Proof. split; reflexivity. Qed.

(** The percentage is computed in floating point: 29 of 100 bytes is
    reported as 28, since [29 / 100 * 100] is the float just below 29. *)
Example hook_29_of_100 :
  DownloadWorker.hook
    {[ "status" := PyStr "downloading";
       "downloaded_bytes" := PyInt 29;
       "total_bytes" := PyInt 100 ]}
  = ([progress 28], inr tt).
Proof. reflexivity. Qed.

(** A [finished] event fills the bar and logs a line. *)
Example hook_finished :
  DownloadWorker.hook event_finished
  = ([progress 100; log "Download finished"], inr tt).
Proof. reflexivity. Qed.

(** ** What callbacks raise and emit *)

Create HintDb callbacks.

Lemma catchable_bind {A B : Type} (m : M A) (f : A -> M B) :
  catchable m = true -> (forall a, catchable (f a) = true) ->
  catchable (m ≫= f) = true.
Proof.
  unfold catchable. rewrite outcome_bind.
  destruct (outcome m) as [e | a]; [done | intros _ H; apply H].
Qed.

Lemma catchable_try {A : Type} (body : M A) (classes : exn -> bool)
    (handler : exn -> M A) :
  catchable body = true -> (forall e, catchable (handler e) = true) ->
  catchable (try_except body classes handler) = true.
Proof.
  unfold catchable, try_except, outcome.
  destruct body as [t [e | a]]; simpl; [| done].
  intros He H. destruct (classes e); [| done].
  specialize (H e). by destruct (handler e).
Qed.

Lemma quiet_bind {A B : Type} (m : M A) (f : A -> M B) :
  quiet m -> (forall a, quiet (f a)) -> quiet (m ≫= f).
Proof.
  unfold quiet. rewrite trace_bind. intros Hm Hf.
  apply Forall_app. split; [done |].
  destruct (outcome m); [constructor | apply Hf].
Qed.

Lemma quiet_try {A : Type} (body : M A) (classes : exn -> bool)
    (handler : exn -> M A) :
  quiet body -> (forall e, quiet (handler e)) ->
  quiet (try_except body classes handler).
Proof.
  unfold quiet, try_except, trace.
  destruct body as [t [e | a]]; simpl; [| done].
  intros Ht H. destruct (classes e); [| done].
  specialize (H e). destruct (handler e). apply Forall_app. by split.
Qed.

Lemma quiet_pure {A : Type} (m : M A) : trace m = [] -> quiet m.
Proof. unfold quiet. intros ->. constructor. Qed.

Lemma catchable_ret {A : Type} (a : A) : catchable (mret a : M A) = true.
Proof. reflexivity. Qed.

Lemma catchable_emit (s : signal) : catchable (emit s) = true.
Proof. reflexivity. Qed.

Lemma catchable_getitem {V : Type} (d : gmap string V) (k : string) :
  catchable (getitem d k) = true.
Proof. unfold getitem. by destruct (d !! k). Qed.

Lemma catchable_truediv (a b : pyval) : catchable (truediv a b) = true.
Proof.
  destruct a as [| x | f | s], b as [| y | g | s']; try reflexivity; simpl.
  - unfold int_truediv. destruct (y =? 0); [done |].
    destruct (SFdiv_core_binary _ _ _ _ _ _) as [[q e] l].
    by destruct (is_inf _).
  - unfold float_of_int. destruct (is_inf (float_of_Z x)); [done |].
    rewrite bind_ret. unfold float_truediv. by destruct (is_zero g).
  - unfold float_of_int. destruct (is_inf (float_of_Z y)); [done |].
    rewrite bind_ret. unfold float_truediv. by destruct (is_zero _).
  - unfold float_truediv. by destruct (is_zero g).
Qed.

Lemma catchable_int_of_float (f : spec_float) : catchable (int_of_float f) = true.
Proof. by destruct f. Qed.

Lemma catchable_float_of_str (s : string) : catchable (float_of_str s) = true.
Proof.
  unfold catchable. destruct (outcome (float_of_str s)) as [e |] eqn:H; [| done].
  apply float_of_str_raises in H. unfold is_Exception. by rewrite H.
Qed.

Lemma catchable_method_replace (v : pyval) (old : ascii) (new : string) :
  catchable (method_replace v old new) = true.
Proof. by destruct v. Qed.

Lemma quiet_ret {A : Type} (a : A) : quiet (mret a : M A).
Proof. constructor. Qed.

Lemma quiet_progress (n : Z) : quiet (emit (progress n)).
Proof. by repeat constructor. Qed.

Lemma quiet_log (s : string) : quiet (emit (log s)).
Proof. by repeat constructor. Qed.

Lemma quiet_getitem {V : Type} (d : gmap string V) (k : string) :
  quiet (getitem d k).
Proof. unfold getitem. destruct (d !! k); constructor. Qed.

Lemma quiet_truediv (a b : pyval) : quiet (truediv a b).
Proof. apply quiet_pure, truediv_pure. Qed.

Lemma quiet_int_of_float (f : spec_float) : quiet (int_of_float f).
Proof. apply quiet_pure, int_of_float_pure. Qed.

Lemma quiet_float_of_str (s : string) : quiet (float_of_str s).
Proof. apply quiet_pure, float_of_str_pure. Qed.

Lemma quiet_method_replace (v : pyval) (old : ascii) (new : string) :
  quiet (method_replace v old new).
Proof. destruct v; constructor. Qed.

#[local] Hint Resolve catchable_ret catchable_emit catchable_getitem
  catchable_truediv catchable_int_of_float catchable_float_of_str
  catchable_method_replace quiet_ret quiet_progress quiet_log quiet_getitem
  quiet_truediv quiet_int_of_float quiet_float_of_str quiet_method_replace
  : callbacks.

(** Splits a goal about a computation along its binds, its [try] and its
    conditionals, and closes the leaves from the hint base. *)
Ltac along_the_code :=
  repeat first
    [ apply catchable_bind; [| intros ?]
    | apply quiet_bind; [| intros ?]
    | apply catchable_try; [| intros ?]
    | apply quiet_try; [| intros ?]
    | match goal with
      | |- context [if ?c then _ else _] => destruct c
      end
    | solve [auto with callbacks] ].

(** Whatever the hook raises is an instance of [Exception]. *)
Lemma hook_catchable (d : gmap string pyval) :
  catchable (DownloadWorker.hook d) = true.
Proof. unfold DownloadWorker.hook. along_the_code. Qed.

Lemma hook_quiet (d : gmap string pyval) : quiet (DownloadWorker.hook d).
Proof. unfold DownloadWorker.hook. along_the_code. Qed.

(** ** The callables in the options *)

Lemma ydl_opts_progress_hooks (w : DownloadWorker.t) :
  DownloadWorker.ydl_opts w !! "progress_hooks" = Some (OHooks [DownloadWorker.hook]).
Proof. unfold DownloadWorker.ydl_opts. by destruct (DownloadWorker.is_mp3 w). Qed.

Lemma ydl_opts_logger (w : DownloadWorker.t) :
  DownloadWorker.ydl_opts w !! "logger" = Some (OLogger DownloadWorker.logger).
Proof. unfold DownloadWorker.ydl_opts. by destruct (DownloadWorker.is_mp3 w). Qed.

(** With the options of the program, a progress callback runs the hook. *)
Lemma run_callback_hook (w : DownloadWorker.t) (d : gmap string pyval) :
  run_callback (DownloadWorker.ydl_opts w) (ProgressHook d) = DownloadWorker.hook d.
Proof.
  unfold run_callback. rewrite ydl_opts_progress_hooks. simpl.
  unfold mbind, M_bind. destruct (DownloadWorker.hook d) as [t [e | []]]; [done |].
  simpl. by rewrite app_nil_r.
Qed.

Lemma logger_debug_cases (msg : string) :
  YTDLPLogger.debug DownloadWorker.logger msg = ([], inr tt)
  \/ YTDLPLogger.debug DownloadWorker.logger msg = ([log msg], inr tt).
Proof. unfold YTDLPLogger.debug. destruct (startswith msg "[debug]"); auto. Qed.

Lemma run_callback_catchable (w : DownloadWorker.t) (c : callback) :
  catchable (run_callback (DownloadWorker.ydl_opts w) c) = true.
Proof.
  destruct c as [d | msg | msg | msg | msg].
  - rewrite run_callback_hook. apply hook_catchable.
  - unfold run_callback. rewrite ydl_opts_logger.
    by destruct (logger_debug_cases msg) as [-> | ->].
  - unfold run_callback. by rewrite ydl_opts_logger.
  - unfold run_callback. by rewrite ydl_opts_logger.
  - unfold run_callback. by rewrite ydl_opts_logger.
Qed.

Lemma run_callback_quiet (w : DownloadWorker.t) (c : callback) :
  quiet (run_callback (DownloadWorker.ydl_opts w) c).
Proof.
  destruct c as [d | msg | msg | msg | msg].
  - rewrite run_callback_hook. apply hook_quiet.
  - unfold run_callback. rewrite ydl_opts_logger.
    destruct (logger_debug_cases msg) as [-> | ->]; by repeat constructor.
  - unfold run_callback. rewrite ydl_opts_logger. by repeat constructor.
  - unfold run_callback. rewrite ydl_opts_logger. by repeat constructor.
  - unfold run_callback. rewrite ydl_opts_logger. by repeat constructor.
Qed.

(** ** Library calls *)

Lemma perform_call (opts : gmap string optval) (c : callback)
    (k : option exn -> behaviour) :
  perform opts (Call c k) =
  (trace (run_callback opts c)
     ++ trace (perform opts (k (raised (outcome (run_callback opts c))))),
   outcome (perform opts (k (raised (outcome (run_callback opts c)))))).
Proof.
  simpl. destruct (run_callback opts c) as [t r]. simpl.
  by destruct (perform opts (k (raised r))).
Qed.

(** No library call makes the program emit [finished]. *)
Lemma perform_quiet (w : DownloadWorker.t) (b : behaviour) :
  quiet (perform (DownloadWorker.ydl_opts w) b).
Proof.
  induction b as [| e | c k IH].
  - constructor.
  - constructor.
  - rewrite perform_call. unfold quiet. simpl. apply Forall_app. split.
    + apply run_callback_quiet.
    + apply IH.
Qed.

(** The callbacks of the program raise instances of [Exception] only; so
    a library call that does the same ends in a way [except Exception]
    copes with. *)
Lemma perform_catchable (w : DownloadWorker.t) (b : behaviour) :
  raises_Exceptions_only b ->
  catchable (perform (DownloadWorker.ydl_opts w) b) = true.
Proof.
  induction 1 as [| e He | c k Hnone IHnone Hsome IHsome].
  - reflexivity.
  - exact He.
  - rewrite perform_call. unfold catchable at 1. cbn [outcome snd].
    pose proof (run_callback_catchable w c) as Hc. unfold catchable in Hc.
    destruct (outcome (run_callback (DownloadWorker.ydl_opts w) c)) as [e | u].
    + exact (IHsome e Hc).
    + exact IHnone.
Qed.

(** A call that hands a failing event to the hook raises what the hook
    raised. *)
Lemma hands_to_hook_raises (w : DownloadWorker.t) (d : gmap string pyval)
    (b : behaviour) (e : exn) :
  outcome (DownloadWorker.hook d) = inl e ->
  hands_to_hook (DownloadWorker.ydl_opts w) d b ->
  outcome (perform (DownloadWorker.ydl_opts w) b) = inl e.
Proof.
  intros He Hb. induction Hb as [k Hk | c k Hc Hb IH].
  - rewrite perform_call, run_callback_hook, He. simpl. by rewrite Hk.
  - rewrite perform_call, Hc. simpl. apply IH.
Qed.

(** ** The job *)

Lemma count_finished_app (l1 l2 : list signal) :
  count_finished (l1 ++ l2) = (count_finished l1 + count_finished l2)%nat.
Proof.
  induction l1 as [| s l1 IH]; [done |].
  destruct s; simpl; by rewrite IH.
Qed.

Lemma count_finished_quiet (l : list signal) :
  Forall (fun s => s <> finished) l -> count_finished l = 0%nat.
Proof.
  induction 1 as [| s l Hs _ IH]; [done |]. by destruct s.
Qed.

Lemma guarded_init_raises (w : DownloadWorker.t)
    (library : gmap string optval -> YoutubeDL) (e : exn) :
  outcome (init_call w library) = inl e ->
  DownloadWorker.guarded w library = (trace (init_call w library), inl e).
Proof.
  unfold DownloadWorker.guarded. fold (init_call w library).
  intros H. rewrite (M_eta (init_call w library)), H. reflexivity.
Qed.

Lemma guarded_entered (w : DownloadWorker.t)
    (library : gmap string optval -> YoutubeDL) :
  outcome (init_call w library) = inr tt ->
  DownloadWorker.guarded w library =
    (trace (init_call w library) ++ [log "Starting download..."]
       ++ trace (download_call w library) ++ trace (exit_call w library),
     match outcome (exit_call w library) with
     | inl e' => inl e'
     | inr _ => outcome (download_call w library)
     end).
Proof.
  unfold DownloadWorker.guarded.
  fold (init_call w library) (download_call w library) (exit_call w library).
  intros H. rewrite (M_eta (init_call w library)), H.
  destruct (download_call w library) as [t1 r1], (exit_call w library) as [t2 r2].
  unfold mbind, M_bind, with_, emit. simpl.
  destruct r1 as [e1 | []]; simpl; by rewrite <- ?app_assoc.
Qed.

Lemma run_returned (w : DownloadWorker.t)
    (library : gmap string optval -> YoutubeDL) :
  outcome (DownloadWorker.guarded w library) = inr tt ->
  DownloadWorker.run w library =
    (mode_banner w ++ trace (DownloadWorker.guarded w library) ++ [finished], inr tt).
Proof.
  unfold DownloadWorker.run, mode_banner.
  destruct (DownloadWorker.guarded w library) as [t r]. simpl. intros ->.
  by destruct (DownloadWorker.is_mp3 w).
Qed.

Lemma run_caught (w : DownloadWorker.t)
    (library : gmap string optval -> YoutubeDL) (e : exn) :
  outcome (DownloadWorker.guarded w library) = inl e ->
  is_Exception e = true ->
  DownloadWorker.run w library =
    (mode_banner w ++ trace (DownloadWorker.guarded w library)
       ++ [log ("Exception: " +:+ exn_msg e); finished], inr tt).
Proof.
  unfold DownloadWorker.run, mode_banner.
  destruct (DownloadWorker.guarded w library) as [t r]. simpl. intros -> He.
  unfold try_except. rewrite He.
  destruct (DownloadWorker.is_mp3 w); simpl; by rewrite <- ?app_assoc.
Qed.

Lemma run_uncaught (w : DownloadWorker.t)
    (library : gmap string optval -> YoutubeDL) (e : exn) :
  outcome (DownloadWorker.guarded w library) = inl e ->
  is_Exception e = false ->
  DownloadWorker.run w library =
    (mode_banner w ++ trace (DownloadWorker.guarded w library), inl e).
Proof.
  unfold DownloadWorker.run, mode_banner.
  destruct (DownloadWorker.guarded w library) as [t r]. simpl. intros -> He.
  unfold try_except. rewrite He.
  destruct (DownloadWorker.is_mp3 w); simpl; by rewrite ?app_nil_r.
Qed.

(** A job whose download raises an instance of [Exception], between an
    entry and an exit of the library that return. *)
Lemma run_download_raises (w : DownloadWorker.t)
    (library : gmap string optval -> YoutubeDL) (e : exn) :
  outcome (init_call w library) = inr tt ->
  outcome (download_call w library) = inl e ->
  outcome (exit_call w library) = inr tt ->
  is_Exception e = true ->
  DownloadWorker.run w library =
    (mode_banner w ++ trace (init_call w library) ++ [log "Starting download..."]
       ++ trace (download_call w library) ++ trace (exit_call w library)
       ++ [log ("Exception: " +:+ exn_msg e); finished],
     inr tt).
Proof.
  intros Hi Hd Hx He.
  pose proof (guarded_entered w library Hi) as Hg. rewrite Hx, Hd in Hg.
  rewrite (run_caught w library e); [| by rewrite Hg | done].
  rewrite Hg. cbn [trace fst]. f_equal. f_equal.
  by rewrite <- !app_assoc.
Qed.

Lemma guarded_quiet (w : DownloadWorker.t)
    (library : gmap string optval -> YoutubeDL) :
  quiet (DownloadWorker.guarded w library).
Proof.
  unfold quiet.
  destruct (outcome (init_call w library)) as [e | []] eqn:Hi.
  - rewrite (guarded_init_raises w library e Hi). apply perform_quiet.
  - rewrite (guarded_entered w library Hi). cbn [trace fst].
    repeat (apply Forall_app; split); try apply perform_quiet.
    by repeat constructor.
Qed.

Lemma guarded_catchable (w : DownloadWorker.t)
    (library : gmap string optval -> YoutubeDL) :
  catchable (init_call w library) = true ->
  catchable (download_call w library) = true ->
  catchable (exit_call w library) = true ->
  catchable (DownloadWorker.guarded w library) = true.
Proof.
  unfold catchable at 1 2 3. intros Hi Hd Hx.
  destruct (outcome (init_call w library)) as [e | []] eqn:Ei.
  - by rewrite (guarded_init_raises w library e Ei).
  - rewrite (guarded_entered w library Ei). unfold catchable. cbn [outcome snd].
    by destruct (outcome (exit_call w library)).
Qed.

Lemma mode_banner_quiet (w : DownloadWorker.t) :
  Forall (fun s => s <> finished) (mode_banner w).
Proof. unfold mode_banner. destruct (DownloadWorker.is_mp3 w); by repeat constructor. Qed.

(** A job whose guarded part returns or raises an instance of
    [Exception] returns, and [finished] is its last and only such
    signal. *)
Lemma run_ends_with_finished (w : DownloadWorker.t)
    (library : gmap string optval -> YoutubeDL) :
  catchable (DownloadWorker.guarded w library) = true ->
  exists before,
    DownloadWorker.run w library = (before ++ [finished], inr tt)
    /\ Forall (fun s => s <> finished) before.
Proof.
  unfold catchable. intros Hc.
  pose proof (guarded_quiet w library) as Hq. unfold quiet in Hq.
  pose proof (mode_banner_quiet w) as Hb.
  destruct (outcome (DownloadWorker.guarded w library)) as [e | []] eqn:Hg.
  - exists (mode_banner w ++ trace (DownloadWorker.guarded w library)
            ++ [log ("Exception: " +:+ exn_msg e)]).
    split.
    + rewrite (run_caught w library e Hg Hc). f_equal.
      by rewrite <- !app_assoc.
    + repeat (apply Forall_app; split); try done. by repeat constructor.
  - exists (mode_banner w ++ trace (DownloadWorker.guarded w library)).
    split.
    + rewrite (run_returned w library Hg). f_equal. by rewrite <- !app_assoc.
    + by apply Forall_app.
Qed.

(** C4, as the code has it: when the library's download call raises an
    instance of [Exception] (entering and leaving the library went well),
    the job logs, after everything emitted until then, the one line
    [Exception: ] followed by the message, then emits [finished], and
    returns: nothing is raised further. *)
Theorem run_catches_download_exception (w : DownloadWorker.t)
    (library : gmap string optval -> YoutubeDL) (e : exn) :
  outcome (init_call w library) = inr tt ->
  outcome (download_call w library) = inl e ->
  outcome (exit_call w library) = inr tt ->
  is_Exception e = true ->
  DownloadWorker.run w library =
    (mode_banner w ++ trace (init_call w library) ++ [log "Starting download..."]
       ++ trace (download_call w library) ++ trace (exit_call w library)
       ++ [log ("Exception: " +:+ exn_msg e); finished],
     inr tt).
Proof. apply run_download_raises. Qed.

(** A job whose download fails with the library's [DownloadError]. *)
Lemma run_catches_download_exception_witness :
  DownloadWorker.run worker_mp4 library_failing =
    ([log "Mode: MP4 (H.264 / AVC)";
      log "Starting download...";
      log "Error: ERROR: Unsupported URL";
      log "Exception: ERROR: Unsupported URL";
      finished],
     inr tt).
Proof.
  apply (run_catches_download_exception worker_mp4 library_failing download_error);
    reflexivity.
Defined.

(** C4, as stated, fails: [KeyboardInterrupt] is an exception, but no
    instance of [Exception].  When the download call raises it, the job
    logs no [Exception: ] line and ends with that exception, uncaught. *)
Lemma run_lets_keyboard_interrupt_through :
  outcome (download_call worker_mp4 library_interrupted)
  = inl (Exn KeyboardInterrupt "")
  /\ DownloadWorker.run worker_mp4 library_interrupted =
       ([log "Mode: MP4 (H.264 / AVC)"; log "Starting download..."],
        inl (Exn KeyboardInterrupt "")).
Proof. split; reflexivity. Qed.

(** How a job ends: it returns, [finished] being the last and the only
    such signal that [run] emits; or it ends with the exception the
    guarded part ended with, which is no instance of [Exception], and
    then [run] has emitted nothing of its own after the guarded part. *)
Lemma run_outcome_cases (w : DownloadWorker.t)
    (library : gmap string optval -> YoutubeDL) :
  (exists before,
     DownloadWorker.run w library = (before ++ [finished], inr tt)
     /\ Forall (fun s => s <> finished) before)
  \/ (exists e,
        outcome (DownloadWorker.guarded w library) = inl e
        /\ is_Exception e = false
        /\ DownloadWorker.run w library =
             (mode_banner w ++ trace (DownloadWorker.guarded w library), inl e)).
Proof.
  destruct (catchable (DownloadWorker.guarded w library)) eqn:Hc.
  - left. by apply run_ends_with_finished.
  - right. unfold catchable in Hc.
    destruct (outcome (DownloadWorker.guarded w library)) as [e | []] eqn:Hg;
      [| discriminate].
    exists e. repeat split; try done. by apply run_uncaught.
Qed.

(** C5: the code does not do what the claim says.  When each of the
    three library calls of a job returns or raises an instance of
    [Exception], [run] returns; a [run] that returns has emitted
    [finished] itself, as its last signal; and Qt emits the same signal
    once more when the thread ends.  So the completion signal of every
    job whose [run] returns reaches the controller twice, not once: the
    signals of the thread end with two [finished].  (After a [run] that
    ended with an exception there is one, the one of Qt.)  The slot
    [download_finished], run twice, enables the download button and
    appends [Ready] twice. *)
Theorem thread_delivers_finished_twice (w : DownloadWorker.t)
    (library : gmap string optval -> YoutubeDL) :
  (catchable (init_call w library) = true ->
   catchable (download_call w library) = true ->
   catchable (exit_call w library) = true ->
   outcome (DownloadWorker.run w library) = inr tt)
  /\ (outcome (DownloadWorker.run w library) = inr tt ->
      count_finished (thread_signals w library) = 2%nat
      /\ exists before,
           thread_signals w library = before ++ [finished; finished]
           /\ Forall (fun s => s <> finished) before)
  /\ (forall e, outcome (DownloadWorker.run w library) = inl e ->
                count_finished (thread_signals w library) = 1%nat)
  /\ (forall window : MainWindow.t,
        MainWindow.dl_button
          (MainWindow.download_finished (MainWindow.download_finished window))
        = true
        /\ MainWindow.log_box
             (MainWindow.download_finished (MainWindow.download_finished window))
           = MainWindow.log_box window ++ ["Ready"; "Ready"]).
Proof.
  repeat apply conj.
  - intros Hi Hd Hx.
    destruct (run_ends_with_finished w library) as (before & -> & _); [| done].
    by apply guarded_catchable.
  - intros Hret. unfold thread_signals.
    destruct (run_outcome_cases w library)
      as [(before & Hrun & Hq) | (e & _ & _ & Hrun)];
      rewrite Hrun in *; [| discriminate Hret].
    cbn [trace fst]. split.
    + rewrite !count_finished_app, (count_finished_quiet _ Hq). reflexivity.
    + exists before. split; [by rewrite <- app_assoc | done].
  - intros e He. unfold thread_signals.
    destruct (run_outcome_cases w library)
      as [(before & Hrun & _) | (e' & _ & _ & Hrun)];
      rewrite Hrun in *; [discriminate He |].
    cbn [trace fst]. rewrite !count_finished_app.
    rewrite (count_finished_quiet _ (mode_banner_quiet w)).
    by rewrite (count_finished_quiet _ (guarded_quiet w library)).
  - intros window. split; [reflexivity |].
    simpl. by rewrite <- app_assoc.
Qed.

(** A successful MP3 job: its thread ends with two [finished]. *)
Lemma thread_delivers_finished_twice_witness :
  outcome (DownloadWorker.run worker_mp3 library_ok) = inr tt
  /\ count_finished (thread_signals worker_mp3 library_ok) = 2%nat
  /\ thread_signals worker_mp3 library_ok =
       [log "Starting download...";
        log "[download] Destination: a.mp4";
        progress 50;
        progress 100;
        log "Download finished";
        finished;
        finished].
Proof.
  destruct (thread_delivers_finished_twice worker_mp3 library_ok)
    as (Hret & Htwice & _).
  assert (H : outcome (DownloadWorker.run worker_mp3 library_ok) = inr tt)
    by (apply Hret; reflexivity).
  repeat apply conj; [exact H | exact (proj1 (Htwice H)) | reflexivity].
Defined.

(** A job that the library ends with [SystemExit]: [run] does not reach
    its own emit, and the thread has the one [finished] of Qt. *)
Lemma thread_after_system_exit :
  DownloadWorker.run worker_mp3 library_exiting
  = ([log "Starting download..."], inl (Exn SystemExit "1"))
  /\ thread_signals worker_mp3 library_exiting
     = [log "Starting download..."; finished].
Proof. split; reflexivity. Qed.

(** C10: an event the hook cannot cope with ends the job in the handler
    of [run].  The hook raises [ZeroDivisionError] on a [downloading]
    event whose [total_bytes] is 0, or, without [total_bytes], whose
    [total_bytes_estimate] is 0, and [KeyError] on an event without
    [status]; in each case it emits nothing.  Whatever the hook raises is
    an instance of [Exception].  And when the download call hands such an
    event to the hook and lets the exception through, the job logs the one
    line [Exception: ] followed by the message, emits [finished] and
    returns. *)
Theorem hook_exception_ends_job :
  (forall (d : gmap string pyval) (a : Z),
     d !! "status" = Some (PyStr "downloading") ->
     d !! "downloaded_bytes" = Some (PyInt a) ->
     d !! "total_bytes" = Some (PyInt 0) ->
     DownloadWorker.hook d = ([], inl (Exn ZeroDivisionError "division by zero")))
  /\ (forall (d : gmap string pyval) (a : Z),
        d !! "status" = Some (PyStr "downloading") ->
        d !! "downloaded_bytes" = Some (PyInt a) ->
        d !! "total_bytes" = None ->
        d !! "total_bytes_estimate" = Some (PyInt 0) ->
        DownloadWorker.hook d = ([], inl (Exn ZeroDivisionError "division by zero")))
  /\ (forall d : gmap string pyval,
        d !! "status" = None ->
        DownloadWorker.hook d = ([], inl (Exn KeyError "'status'")))
  /\ (forall (d : gmap string pyval) (e : exn),
        outcome (DownloadWorker.hook d) = inl e -> is_Exception e = true)
  /\ (forall (w : DownloadWorker.t) (library : gmap string optval -> YoutubeDL)
             (d : gmap string pyval) (e : exn),
        outcome (DownloadWorker.hook d) = inl e ->
        hands_to_hook (DownloadWorker.ydl_opts w) d
          (ydl_download (library (DownloadWorker.ydl_opts w)) [DownloadWorker.url w]) ->
        outcome (init_call w library) = inr tt ->
        outcome (exit_call w library) = inr tt ->
        DownloadWorker.run w library =
          (mode_banner w ++ trace (init_call w library)
             ++ [log "Starting download..."]
             ++ trace (download_call w library) ++ trace (exit_call w library)
             ++ [log ("Exception: " +:+ exn_msg e); finished],
           inr tt)).
Proof.
  assert (Hexc : forall (d : gmap string pyval) (e : exn),
            outcome (DownloadWorker.hook d) = inl e -> is_Exception e = true).
  { intros d e He. pose proof (hook_catchable d) as Hc.
    unfold catchable in Hc. by rewrite He in Hc. }
  repeat apply conj.
  - intros d a Hs Ha Hb. by rewrite (hook_total d _ _ Hs Ha Hb).
  - intros d a Hs Ha Hb He. by rewrite (hook_estimate d _ _ Hs Ha Hb He).
  - intros d Hs. unfold DownloadWorker.hook, getitem. by rewrite Hs.
  - exact Hexc.
  - intros w library d e He Hh Hi Hx.
    apply run_download_raises; try done.
    + by apply (hands_to_hook_raises w d).
    + by apply (Hexc d).
Qed.

(** A job whose library reports a total of zero bytes. *)
Lemma hook_exception_ends_job_witness :
  DownloadWorker.run worker_mp4 library_zero_total =
    ([log "Mode: MP4 (H.264 / AVC)";
      log "Starting download...";
      log "[download] Destination: a.mp4";
      log "Exception: division by zero";
      finished],
     inr tt).
Proof.
  destruct hook_exception_ends_job as (Hzero & _ & _ & _ & Hrun).
  apply (Hrun worker_mp4 library_zero_total event_zero_total
           (Exn ZeroDivisionError "division by zero")).
  - rewrite (Hzero event_zero_total 50); reflexivity.
  - apply hands_later; [reflexivity |].
    apply hands_now. intros e. reflexivity.
  - reflexivity.
  - reflexivity.
Defined.

(** ** The controller *)

Lemma lstrip_empty (s : string) : lstrip s = "" <-> all_space s = true.
Proof.
  induction s as [| c s IH]; simpl; [done |].
  destruct (isspace c); simpl; [done |]. split; discriminate.
Qed.

Lemma rstrip_keeps_head (c : ascii) (s : string) :
  isspace c = false -> rstrip (String c s) <> "".
Proof. intros Hc. simpl. destruct (rstrip s); [by rewrite Hc | done]. Qed.

Lemma lstrip_head (s : string) :
  lstrip s = "" \/ exists c s', lstrip s = String c s' /\ isspace c = false.
Proof.
  induction s as [| c s IH]; simpl; [by left |].
  destruct (isspace c) eqn:Hc; [done |]. right. by exists c, s.
Qed.

Lemma strip_empty (s : string) : strip s = "" <-> all_space s = true.
Proof.
  unfold strip. rewrite <- lstrip_empty.
  destruct (lstrip_head s) as [-> | (c & s' & -> & Hc)]; [done |].
  split; [| discriminate]. intros H. by apply rstrip_keeps_head in H.
Qed.

Lemma setValue_zero (current : Z) : MainWindow.setValue current 0 = 0.
Proof. reflexivity. Qed.

(** C6: a start request whose URL is empty after trimming, or whose
    output directory is empty, starts no job; it appends one message to
    the log ([Please enter a URL] when the URL is the reason, else
    [Please select an output folder]) and leaves everything else as it
    was: the lines already in the log, the progress value, the state of
    the download button (so an enabled button stays enabled), the two
    fields, the mode and the worker. *)
Theorem start_download_rejects_empty (self : MainWindow.t) :
  strip (MainWindow.url_input self) = "" \/ MainWindow.output_path self = "" ->
  let message :=
    if String.eqb (strip (MainWindow.url_input self)) ""
    then "Please enter a URL" else "Please select an output folder" in
  let self' := fst (MainWindow.start_download self) in
  snd (MainWindow.start_download self) = []
  /\ MainWindow.log_box self' = MainWindow.log_box self ++ [message]
  /\ MainWindow.dl_button self' = MainWindow.dl_button self
  /\ (MainWindow.dl_button self = true -> MainWindow.dl_button self' = true)
  /\ MainWindow.progress_bar self' = MainWindow.progress_bar self
  /\ MainWindow.url_input self' = MainWindow.url_input self
  /\ MainWindow.output_path self' = MainWindow.output_path self
  /\ MainWindow.mp3_radio self' = MainWindow.mp3_radio self
  /\ MainWindow.worker self' = MainWindow.worker self.
Proof.
  intros H. unfold MainWindow.start_download.
  destruct (String.eqb (strip (MainWindow.url_input self)) "") eqn:Hu.
  - simpl. by repeat split.
  - destruct H as [H | H].
    + rewrite H in Hu. discriminate Hu.
    + rewrite H. simpl. by repeat split.
Qed.

(** A request with blanks for a URL, after an earlier job. *)
Lemma start_download_rejects_empty_witness :
  snd (MainWindow.start_download window_blank_url) = []
  /\ MainWindow.log_box (fst (MainWindow.start_download window_blank_url))
     = ["Download finished"; "Ready"; "Please enter a URL"]
  /\ MainWindow.dl_button (fst (MainWindow.start_download window_blank_url)) = true.
Proof.
  destruct (start_download_rejects_empty window_blank_url)
    as (H1 & H2 & H3 & _); [left; reflexivity |].
  repeat apply conj; [exact H1 | exact H2 | exact H3].
Defined.

(** C7, as the code has it: a start request whose URL and whose output
    directory are both non-empty after trimming sets the progress value
    to 0, empties the log, disables the download button and starts
    exactly one job, which carries the trimmed URL, the selected mode and
    the trimmed output directory. *)
Theorem start_download_launches_one (self : MainWindow.t) :
  strip (MainWindow.url_input self) <> "" ->
  strip (MainWindow.output_path self) <> "" ->
  let job :=
    {| DownloadWorker.url := strip (MainWindow.url_input self);
       DownloadWorker.is_mp3 := MainWindow.mp3_radio self;
       DownloadWorker.output_dir := strip (MainWindow.output_path self) |} in
  MainWindow.start_download self =
    ({| MainWindow.url_input := MainWindow.url_input self;
        MainWindow.output_path := MainWindow.output_path self;
        MainWindow.mp3_radio := MainWindow.mp3_radio self;
        MainWindow.progress_bar := 0;
        MainWindow.log_box := [];
        MainWindow.dl_button := false;
        MainWindow.worker := Some job |},
     [job]).
Proof.
  intros Hu Ho. unfold MainWindow.start_download.
  apply String.eqb_neq in Hu, Ho. by rewrite Hu, Ho.
Qed.

(** A request with a URL between blanks and a folder. *)
Lemma start_download_launches_one_witness :
  MainWindow.start_download window_ready =
    ({| MainWindow.url_input := "  https://example.com/watch?v=1 ";
        MainWindow.output_path := "/home/u/Videos";
        MainWindow.mp3_radio := true;
        MainWindow.progress_bar := 0;
        MainWindow.log_box := [];
        MainWindow.dl_button := false;
        MainWindow.worker := Some worker_mp3' |},
     [worker_mp3']).
Proof.
  apply (start_download_launches_one window_ready); discriminate.
Defined.

(** C7, as stated, fails: the output directory is trimmed as well.  A
    request with a URL and the non-empty output directory [" "] starts
    no job; and with the output directory ["/home/u/Videos "] the job
    started carries ["/home/u/Videos"], not that directory. *)
Lemma start_download_trims_output_directory :
  MainWindow.start_download window_blank_dir
  = (MainWindow.log_box_append window_blank_dir "Please select an output folder", [])
  /\ map DownloadWorker.output_dir (snd (MainWindow.start_download window_trailing_blank))
     = ["/home/u/Videos"]
  /\ MainWindow.output_path window_trailing_blank <> "/home/u/Videos".
Proof. repeat apply conj; [reflexivity | reflexivity | discriminate]. Qed.

(** C9, as the code has it: the output directory of every job that
    starts is a non-empty string, the trimmed text of the output field;
    the URL of the job is non-empty as well. *)
Theorem started_job_has_output_directory (self : MainWindow.t)
    (job : DownloadWorker.t) :
  In job (snd (MainWindow.start_download self)) ->
  DownloadWorker.output_dir job <> ""
  /\ DownloadWorker.output_dir job = strip (MainWindow.output_path self)
  /\ DownloadWorker.url job <> "".
Proof.
  unfold MainWindow.start_download.
  destruct (String.eqb (strip (MainWindow.url_input self)) "") eqn:Hu; [done |].
  destruct (String.eqb (strip (MainWindow.output_path self)) "") eqn:Ho; [done |].
  apply String.eqb_neq in Hu, Ho. simpl. intros [<- | []]. by simpl.
Qed.

(** The job that [window_ready] starts. *)
Lemma started_job_has_output_directory_witness :
  DownloadWorker.output_dir worker_mp3' <> "".
Proof.
  apply (started_job_has_output_directory window_ready worker_mp3').
  left. reflexivity.
Defined.

(** C9, as stated, fails: the program never looks at the file system.
    After the dialog returned [/usr], the job starts with that output
    directory, whether the directory cannot be written or is gone. *)
Lemma start_download_unchecked_directory :
  map DownloadWorker.output_dir (snd (MainWindow.start_download window_usr)) = ["/usr"]
  /\ is_dir fs_read_only "/usr" = true
  /\ is_writable fs_read_only "/usr" = false
  /\ is_dir fs_gone "/usr" = false.
Proof. repeat apply conj; reflexivity. Qed.

(** ** The options *)

Lemma os_path_join_template (dir : string) :
  os_path_join dir "%(title)s.%(ext)s" =
  dir +:+ (if String.eqb dir "" || endswith dir "/" then "" else "/")
      +:+ "%(title)s.%(ext)s".
Proof.
  unfold os_path_join. replace (startswith "%(title)s.%(ext)s" "/") with false by done.
  by destruct (String.eqb dir "" || endswith dir "/").
Qed.

(** C8: the options of a job.  For MP3 the format selector is
    [bestaudio/best] and the one post-processor extracts the audio to
    mp3 at quality 320.  For MP4 the format selector asks for H.264 video
    in MP4 with M4A audio and falls back, in this order, to MP4 video
    with the best audio, to the best MP4 file and to the best file; the
    output is merged to mp4 and the one post-processor converts to mp4.
    In both modes the output template is [%(title)s.%(ext)s] joined to
    the output directory, and the hook and the logger are handed over.
    There are no other options. *)
Theorem ydl_opts_by_mode (u dir : string) :
  DownloadWorker.ydl_opts
    {| DownloadWorker.url := u; DownloadWorker.is_mp3 := true;
       DownloadWorker.output_dir := dir |}
  = {[ "outtmpl" := OStr (os_path_join dir "%(title)s.%(ext)s");
       "progress_hooks" := OHooks [DownloadWorker.hook];
       "logger" := OLogger DownloadWorker.logger;
       "verbose" := OBool true;
       "format" := OStr "bestaudio/best";
       "postprocessors" :=
         OPostprocessors
           [ {[ "key" := "FFmpegExtractAudio";
                "preferredcodec" := "mp3";
                "preferredquality" := "320" ]} ] ]}
  /\ DownloadWorker.ydl_opts
       {| DownloadWorker.url := u; DownloadWorker.is_mp3 := false;
          DownloadWorker.output_dir := dir |}
     = {[ "outtmpl" := OStr (os_path_join dir "%(title)s.%(ext)s");
          "progress_hooks" := OHooks [DownloadWorker.hook];
          "logger" := OLogger DownloadWorker.logger;
          "verbose" := OBool true;
          "format" :=
            OStr "bestvideo[ext=mp4][vcodec^=avc1]+bestaudio[ext=m4a]/bestvideo[ext=mp4]+bestaudio/best[ext=mp4]/best";
          "merge_output_format" := OStr "mp4";
          "postprocessors" :=
            OPostprocessors
              [ {[ "key" := "FFmpegVideoConvertor";
                   "preferedformat" := "mp4" ]} ] ]}
  /\ split_on "/"
       "bestvideo[ext=mp4][vcodec^=avc1]+bestaudio[ext=m4a]/bestvideo[ext=mp4]+bestaudio/best[ext=mp4]/best"
     = [ "bestvideo[ext=mp4][vcodec^=avc1]+bestaudio[ext=m4a]";
         "bestvideo[ext=mp4]+bestaudio";
         "best[ext=mp4]";
         "best" ]
  /\ split_on "/" "bestaudio/best" = ["bestaudio"; "best"]
  /\ os_path_join dir "%(title)s.%(ext)s"
     = dir +:+ (if String.eqb dir "" || endswith dir "/" then "" else "/")
         +:+ "%(title)s.%(ext)s".
Proof.
  repeat apply conj; try reflexivity.
  apply os_path_join_template.
Qed.

(** * Further properties *)

(** ** The progress hook on events of any kind *)

Lemma eq_str_true (v : pyval) (s : string) : eq_str v s = true -> v = PyStr s.
Proof.
  destruct v as [| z | f | s']; try discriminate. simpl.
  intros H. apply String.eqb_eq in H. by subst.
Qed.

(** The hook on a [finished] event. *)
Lemma hook_status_finished (d : gmap string pyval) :
  d !! "status" = Some (PyStr "finished") ->
  DownloadWorker.hook d = ([progress 100; log "Download finished"], inr tt).
Proof.
  intros Hs. unfold DownloadWorker.hook, getitem. rewrite Hs. reflexivity.
Qed.

(** X1: on an event whose status is [finished] the hook emits the
    percentage 100 and then the line [Download finished], whatever else
    the event holds. *)
Theorem hook_on_finished (d : gmap string pyval) :
  d !! "status" = Some (PyStr "finished") ->
  DownloadWorker.hook d = ([progress 100; log "Download finished"], inr tt).
Proof.
  intros Hs. unfold DownloadWorker.hook, getitem. rewrite Hs. reflexivity.
Qed.

(** The event that ends a download, with its byte counts. *)
Lemma hook_on_finished_witness :
  DownloadWorker.hook
    {[ "status" := PyStr "finished";
       "downloaded_bytes" := PyInt 7;
       "total_bytes" := PyInt 0 ]}
  = ([progress 100; log "Download finished"], inr tt).
Proof. apply hook_on_finished. reflexivity. Defined.

(** The hook on an event of another status. *)
Lemma hook_status_other (d : gmap string pyval) (status : pyval) :
  d !! "status" = Some status ->
  status <> PyStr "downloading" ->
  status <> PyStr "finished" ->
  DownloadWorker.hook d = ([], inr tt).
Proof.
  intros Hs H1 H2. unfold DownloadWorker.hook, getitem. rewrite Hs, !bind_ret.
  destruct (eq_str status "downloading") eqn:E1.
  { by apply eq_str_true in E1. }
  destruct (eq_str status "finished") eqn:E2; [| done].
  by apply eq_str_true in E2.
Qed.

(** X2: an event whose status is there but is neither [downloading] nor
    [finished] (another string, or no string at all) is ignored: nothing
    is emitted, nothing is raised, whatever else the event holds. *)
Theorem hook_ignores_other_status (d : gmap string pyval) (status : pyval) :
  d !! "status" = Some status ->
  status <> PyStr "downloading" ->
  status <> PyStr "finished" ->
  DownloadWorker.hook d = ([], inr tt).
Proof.
  intros Hs H1 H2. unfold DownloadWorker.hook, getitem. rewrite Hs, !bind_ret.
  destruct (eq_str status "downloading") eqn:E1.
  { by apply eq_str_true in E1. }
  destruct (eq_str status "finished") eqn:E2; [| done].
  by apply eq_str_true in E2.
Qed.

(** An [error] event with broken byte counts, and an event whose status
    is [None]. *)
Lemma hook_ignores_other_status_witness :
  DownloadWorker.hook
    {[ "status" := PyStr "error"; "downloaded_bytes" := PyNone;
       "total_bytes" := PyInt 0 ]} = ([], inr tt)
  /\ DownloadWorker.hook {[ "status" := PyNone ]} = ([], inr tt).
Proof.
  split.
  - apply (hook_ignores_other_status _ (PyStr "error")); [reflexivity | | ];
      discriminate.
  - apply (hook_ignores_other_status _ PyNone); [reflexivity | | ]; discriminate.
Defined.

(** How the hook comes to its result, by the fields of the event. *)
Lemma hook_branches (d : gmap string pyval) :
  (d !! "status" = None
   /\ DownloadWorker.hook d = ([], inl (Exn KeyError "'status'")))
  \/ (exists status, d !! "status" = Some status
        /\ status <> PyStr "downloading" /\ status <> PyStr "finished"
        /\ DownloadWorker.hook d = ([], inr tt))
  \/ (d !! "status" = Some (PyStr "finished")
      /\ DownloadWorker.hook d = ([progress 100; log "Download finished"], inr tt))
  \/ (d !! "status" = Some (PyStr "downloading")
      /\ ((exists a b,
            DownloadWorker.hook d = (n ← percent a b; emit (progress n)))
          \/ (exists v,
                d !! "_percent_str" = Some v
                /\ DownloadWorker.hook d =
                     (replaced ← method_replace v "%" "";
                      try_except
                        (f ← float_of_str (strip replaced);
                         n ← int_of_float f;
                         emit (progress n))
                        is_ValueError_or_AttributeError
                        (fun _ => mret tt)))
          \/ DownloadWorker.hook d = ([], inr tt))).
Proof.
  destruct (d !! "status") as [status |] eqn:Hs.
  2: { left. split; [done |]. unfold DownloadWorker.hook, getitem. by rewrite Hs. }
  right.
  destruct (eq_str status "downloading") eqn:E1.
  - apply eq_str_true in E1. subst status. right. right. split; [done |].
    destruct (d !! "downloaded_bytes") as [a |] eqn:Ha;
      destruct (d !! "total_bytes") as [b |] eqn:Hb;
      destruct (d !! "total_bytes_estimate") as [c |] eqn:Hc;
      try (left; eexists _, _; by apply hook_total);
      try (left; eexists _, _; by apply hook_estimate);
      (destruct (d !! "_percent_str") as [v |] eqn:Hp;
       [ right; left; exists v; split; [done |];
         apply hook_percent_str; try done; unfold contains;
         by rewrite ?Ha, ?Hb, ?Hc
       | right; right; apply hook_no_source; try done; unfold contains;
         by rewrite ?Ha, ?Hb, ?Hc ]).
  - destruct (eq_str status "finished") eqn:E2.
    + apply eq_str_true in E2. subst status. right. left.
      split; [done |]. by apply hook_status_finished.
    + left. exists status. repeat split.
      * intros ->. discriminate E1.
      * intros ->. discriminate E2.
      * unfold DownloadWorker.hook, getitem. rewrite Hs, !bind_ret.
        by rewrite E1, E2.
Qed.

Lemma emit_percent_cases (a b : pyval) :
  (exists e, outcome (percent a b) = inl e
             /\ (n ← percent a b; emit (progress n)) = ([], inl e))
  \/ (exists n, outcome (percent a b) = inr n
                /\ (n ← percent a b; emit (progress n)) = ([progress n], inr tt)).
Proof.
  rewrite (M_eta (percent a b)), percent_pure.
  destruct (outcome (percent a b)) as [e | n]; [left | right]; eauto.
Qed.

(** What the third source gives, by how the cleaned string reads. *)
Lemma percent_str_cases (s : string) :
  let text := strip (replace "%" "" s) in
  try_except
    (f ← float_of_str text; n ← int_of_float f; emit (progress n))
    is_ValueError_or_AttributeError (fun _ => mret tt)
  = match outcome (float_of_str text) with
    | inr (S754_infinity _) =>
        ([], inl (Exn OverflowError "cannot convert float infinity to integer"))
    | inr (S754_zero _) => ([progress 0], inr tt)
    | inr (S754_finite sg m e) => ([progress (float_trunc sg m e)], inr tt)
    | _ => ([], inr tt)
    end.
Proof.
  intros text.
  pose proof (float_of_str_raises text) as Hraise.
  rewrite (M_eta (float_of_str text)), (float_of_str_pure text).
  destruct (outcome (float_of_str text)) as [e | f].
  - specialize (Hraise e eq_refl).
    unfold try_except, is_ValueError_or_AttributeError. simpl. by rewrite Hraise.
  - rewrite bind_value. by destruct f.
Qed.

(** X3: whatever the event, the hook does one of four things: it raises,
    having emitted nothing; it returns, having emitted nothing; it
    returns, having emitted one percentage; it returns, having emitted
    100 and the line [Download finished].  So an event gives at most one
    [progress] signal, and a raising hook has not touched the window. *)
Theorem hook_emits_at_most_once (d : gmap string pyval) :
  (exists e, DownloadWorker.hook d = ([], inl e))
  \/ DownloadWorker.hook d = ([], inr tt)
  \/ (exists n, DownloadWorker.hook d = ([progress n], inr tt))
  \/ DownloadWorker.hook d = ([progress 100; log "Download finished"], inr tt).
Proof.
  destruct (hook_branches d)
    as [[_ H] | [(st & _ & _ & _ & H) | [[_ H] | [_ [(a & b & H) | [(v & _ & H) | H]]]]]];
    rewrite H; eauto.
  - destruct (emit_percent_cases a b) as [(e & _ & ->) | (n & _ & ->)]; eauto.
  - destruct v as [| z | f | s]; try (left; eexists; reflexivity).
    cbn [method_replace]. rewrite bind_ret, percent_str_cases.
    destruct (outcome (float_of_str _)) as [e | [sg | sg | | sg m e]]; eauto 6.
Qed.

Lemma truediv_raises (a b : pyval) (e : exn) :
  outcome (truediv a b) = inl e -> arith_error e = true.
Proof.
  destruct a as [| x | f | s], b as [| y | g | s']; simpl;
    try (by intros [= <-]).
  - unfold int_truediv. destruct (y =? 0); [by intros [= <-] |].
    destruct (SFdiv_core_binary _ _ _ _ _ _) as [[q x'] l].
    destruct (is_inf _); [by intros [= <-] | done].
  - unfold float_of_int. destruct (is_inf (float_of_Z x)); [by intros [= <-] |].
    rewrite bind_ret. unfold float_truediv.
    destruct (is_zero g); [by intros [= <-] | done].
  - unfold float_of_int. destruct (is_inf (float_of_Z y)); [by intros [= <-] |].
    rewrite bind_ret. unfold float_truediv.
    destruct (is_zero _); [by intros [= <-] | done].
  - unfold float_truediv. destruct (is_zero g); [by intros [= <-] | done].
Qed.

Lemma percent_raises (a b : pyval) (e : exn) :
  outcome (percent a b) = inl e -> arith_error e = true.
Proof.
  unfold percent. rewrite outcome_bind.
  destruct (outcome (truediv a b)) as [e' | q] eqn:Hq.
  - intros [= <-]. by apply (truediv_raises a b).
  - destruct (float_mul_int q 100); simpl; try done; by intros [= <-].
Qed.

(** X4: the exceptions that leave the hook.  [KeyError] leaves it exactly
    when the event has no [status]; every other exception comes from a
    [downloading] event and is one of the arithmetic ([ZeroDivisionError],
    [OverflowError], [TypeError], [ValueError]) or the [AttributeError] of
    a percent string that is no string. *)
Theorem hook_exceptions (d : gmap string pyval) (e : exn) :
  outcome (DownloadWorker.hook d) = inl e ->
  (d !! "status" = None /\ e = Exn KeyError "'status'")
  \/ (d !! "status" = Some (PyStr "downloading")
      /\ (arith_error e = true
          \/ (exn_cls e = AttributeError
              /\ exists v, d !! "_percent_str" = Some v
                           /\ forall s, v <> PyStr s))).
Proof.
  destruct (hook_branches d)
    as [[Hs H] | [(st & _ & _ & _ & H) | [[_ H] | [Hs [(a & b & H) | [(v & Hv & H) | H]]]]]];
    rewrite H; try discriminate.
  - intros [= <-]. by left.
  - intros He. right. split; [done |]. left.
    destruct (emit_percent_cases a b) as [(e' & He' & Heq) | (n & _ & Heq)];
      rewrite Heq in He; [| discriminate].
    injection He as <-. by apply (percent_raises a b).
  - intros He. right. split; [done |].
    destruct v as [| z | f | s];
      try (injection He as <-; right; split; [done |];
           eexists; split; [exact Hv | discriminate]).
    left. cbn [method_replace] in He. rewrite bind_ret, percent_str_cases in He.
    destruct (outcome (float_of_str _)) as [e' | [sg | sg | | sg m x]];
      try discriminate.
    by injection He as <-.
Qed.

(** The event with a total of zero bytes: its exception is arithmetic. *)
Lemma hook_exceptions_witness :
  (event_zero_total !! "status" = None
   /\ Exn ZeroDivisionError "division by zero" = Exn KeyError "'status'")
  \/ (event_zero_total !! "status" = Some (PyStr "downloading")
      /\ (arith_error (Exn ZeroDivisionError "division by zero") = true
          \/ (exn_cls (Exn ZeroDivisionError "division by zero") = AttributeError
              /\ exists v, event_zero_total !! "_percent_str" = Some v
                           /\ forall s, v <> PyStr s))).
Proof. apply (hook_exceptions event_zero_total). reflexivity. Defined.

(** X5: a percent string that is no string ([None], a number) is not
    dropped: when the hook comes to it, [AttributeError] leaves the hook,
    for [.replace] is called before the [try] statement begins. *)
Theorem hook_percent_str_not_a_string (d : gmap string pyval) (v : pyval) :
  d !! "status" = Some (PyStr "downloading") ->
  contains d "downloaded_bytes" && contains d "total_bytes" = false ->
  contains d "downloaded_bytes" && contains d "total_bytes_estimate" = false ->
  d !! "_percent_str" = Some v ->
  (forall s, v <> PyStr s) ->
  DownloadWorker.hook d =
    ([], inl (Exn AttributeError
                ("'" +:+ type_name v +:+ "' object has no attribute 'replace'"))).
Proof.
  intros Hs H1 H2 Hp Hv. rewrite (hook_percent_str d v Hs H1 H2 Hp).
  destruct v as [| z | f | s]; try reflexivity. by destruct (Hv s).
Qed.

(** A [downloading] event whose percent string is [None]. *)
Lemma hook_percent_str_not_a_string_witness :
  DownloadWorker.hook
    {[ "status" := PyStr "downloading"; "_percent_str" := PyNone ]}
  = ([], inl (Exn AttributeError "'NoneType' object has no attribute 'replace'")).
Proof.
  apply (hook_percent_str_not_a_string _ PyNone); try reflexivity. discriminate.
Defined.

Lemma truediv_not_numbers (a b : pyval) :
  is_number a && is_number b = false ->
  truediv a b =
    ([], inl (Exn TypeError ("unsupported operand type(s) for /: '" +:+ type_name a
                             +:+ "' and '" +:+ type_name b +:+ "'"))).
Proof. by destruct a, b. Qed.

(** X6: a byte count that is there but is no number ([None], say) is not
    taken for a missing one.  With [downloaded_bytes] and [total_bytes]
    there and one of them no number, the hook raises [TypeError] and emits
    nothing, even if the event also has an estimate or a percent string
    to fall back on; and likewise, without [total_bytes], for
    [total_bytes_estimate]. *)
Theorem hook_count_not_a_number (d : gmap string pyval) (a b : pyval) :
  d !! "status" = Some (PyStr "downloading") ->
  d !! "downloaded_bytes" = Some a ->
  is_number a && is_number b = false ->
  d !! "total_bytes" = Some b
  \/ (d !! "total_bytes" = None /\ d !! "total_bytes_estimate" = Some b) ->
  DownloadWorker.hook d =
    ([], inl (Exn TypeError ("unsupported operand type(s) for /: '" +:+ type_name a
                             +:+ "' and '" +:+ type_name b +:+ "'"))).
Proof.
  intros Hs Ha Hn [Hb | [Hb He]].
  - rewrite (hook_total d a b Hs Ha Hb). unfold percent.
    by rewrite (truediv_not_numbers a b Hn).
  - rewrite (hook_estimate d a b Hs Ha Hb He). unfold percent.
    by rewrite (truediv_not_numbers a b Hn).
Qed.

(** An event of a download of unknown size, with a percent string and an
    estimate at hand. *)
Lemma hook_count_not_a_number_witness :
  DownloadWorker.hook
    {[ "status" := PyStr "downloading";
       "downloaded_bytes" := PyInt 1024;
       "total_bytes" := PyNone;
       "total_bytes_estimate" := PyInt 4096;
       "_percent_str" := PyStr " 25.0%" ]}
  = ([], inl (Exn TypeError "unsupported operand type(s) for /: 'int' and 'NoneType'")).
Proof.
  apply (hook_count_not_a_number _ (PyInt 1024) PyNone); try reflexivity.
  left. reflexivity.
Defined.

(** The hook on a percent string, by how the cleaned string reads. *)
Lemma hook_percent_str_read (d : gmap string pyval) (s : string) :
  d !! "status" = Some (PyStr "downloading") ->
  contains d "downloaded_bytes" && contains d "total_bytes" = false ->
  contains d "downloaded_bytes" && contains d "total_bytes_estimate" = false ->
  d !! "_percent_str" = Some (PyStr s) ->
  DownloadWorker.hook d =
    match outcome (float_of_str (strip (replace "%" "" s))) with
    | inr (S754_infinity _) =>
        ([], inl (Exn OverflowError "cannot convert float infinity to integer"))
    | inr (S754_zero _) => ([progress 0], inr tt)
    | inr (S754_finite sg m e) => ([progress (float_trunc sg m e)], inr tt)
    | _ => ([], inr tt)
    end.
Proof.
  intros Hs H1 H2 Hp. rewrite (hook_percent_str d (PyStr s) Hs H1 H2 Hp).
  cbn [method_replace]. rewrite bind_ret. apply percent_str_cases.
Qed.

(** X7: what a string under [_percent_str] leads to, when the hook comes
    to it, in all cases: a string that is no float, or reads as NaN, is
    dropped; one that reads as a zero or a finite number has its integer
    part emitted; one that reads as an infinity ([inf], [Infinity], a
    decimal beyond the range of floats) makes the hook raise
    [OverflowError].  No other string makes the hook raise. *)
Theorem hook_percent_str_outcome (d : gmap string pyval) (s : string) :
  d !! "status" = Some (PyStr "downloading") ->
  contains d "downloaded_bytes" && contains d "total_bytes" = false ->
  contains d "downloaded_bytes" && contains d "total_bytes_estimate" = false ->
  d !! "_percent_str" = Some (PyStr s) ->
  DownloadWorker.hook d =
    match outcome (float_of_str (strip (replace "%" "" s))) with
    | inr (S754_infinity _) =>
        ([], inl (Exn OverflowError "cannot convert float infinity to integer"))
    | inr (S754_zero _) => ([progress 0], inr tt)
    | inr (S754_finite sg m e) => ([progress (float_trunc sg m e)], inr tt)
    | _ => ([], inr tt)
    end.
Proof.
  intros Hs H1 H2 Hp. rewrite (hook_percent_str d (PyStr s) Hs H1 H2 Hp).
  cbn [method_replace]. rewrite bind_ret. apply percent_str_cases.
Qed.

(** The strings [-12.9%] (emitted as -12), [nan%] (dropped), [1e999 %]
    and [-Infinity%] (raised). *)
Lemma hook_percent_str_outcome_witness :
  DownloadWorker.hook
    {[ "status" := PyStr "downloading"; "_percent_str" := PyStr "-12.9%" ]}
  = ([progress (-12)], inr tt)
  /\ DownloadWorker.hook
       {[ "status" := PyStr "downloading"; "_percent_str" := PyStr "nan%" ]}
     = ([], inr tt)
  /\ DownloadWorker.hook
       {[ "status" := PyStr "downloading"; "_percent_str" := PyStr "1e999 %" ]}
     = ([], inl (Exn OverflowError "cannot convert float infinity to integer"))
  /\ DownloadWorker.hook
       {[ "status" := PyStr "downloading"; "_percent_str" := PyStr "-Infinity%" ]}
     = ([], inl (Exn OverflowError "cannot convert float infinity to integer")).
Proof.
  repeat apply conj.
  - rewrite (hook_percent_str_outcome _ "-12.9%"); reflexivity.
  - rewrite (hook_percent_str_outcome _ "nan%"); reflexivity.
  - rewrite (hook_percent_str_outcome _ "1e999 %"); reflexivity.
  - rewrite (hook_percent_str_outcome _ "-Infinity%"); reflexivity.
Defined.

(** ** Exact percentages *)

Lemma iter_pos_zero_record (p : positive) :
  SpecFloat.iter_pos shr_1 p (Build_shr_record 0 false false) = Build_shr_record 0 false false.
Proof.
  induction p as [p IH | p IH |]; simpl; by rewrite ?IH.
Qed.

(** Rounding an exact zero gives the zero of the given sign. *)
Lemma binary_round_aux_zero (sx : bool) (e : Z) :
  binary_round_aux prec emax sx 0 e loc_Exact = S754_zero sx.
Proof.
  unfold binary_round_aux, shr_fexp, shr. cbn [shr_record_of_loc Zdigits2].
  destruct (fexp prec emax (0 + e) - e) as [| p | p];
    rewrite ?iter_pos_zero_record; cbn [shr_m loc_of_shr_record round_nearest_even
                                         shr_record_of_loc Zdigits2].
  - destruct (fexp prec emax (0 + e) - e) as [| q | q];
      by rewrite ?iter_pos_zero_record.
  - destruct (fexp prec emax (0 + (e + Z.pos p)) - (e + Z.pos p)) as [| q | q];
      by rewrite ?iter_pos_zero_record.
  - destruct (fexp prec emax (0 + e) - e) as [| q | q];
      by rewrite ?iter_pos_zero_record.
Qed.

Lemma new_location_zero (n : Z) : new_location n 0 = loc_Exact.
Proof. unfold new_location. by destruct (Z.even n). Qed.

(** [0 / y] is the zero with the sign of [y]. *)
Lemma int_truediv_zero (y : Z) :
  y <> 0 -> int_truediv 0 y = mret (S754_zero (y <? 0)).
Proof.
  intros Hy. unfold int_truediv. apply Z.eqb_neq in Hy. rewrite Hy.
  unfold SFdiv_core_binary. cbn [Z.abs Zdigits2].
  assert (Hm : forall s : Z,
            match s with Z.pos _ => Z.shiftl 0 s | _ => 0 end = 0).
  { intros [| p | p]; [done | apply Z.shiftl_0_l | done]. }
  rewrite Hm. cbn [Z.div_eucl]. rewrite new_location_zero.
  rewrite binary_round_aux_zero. reflexivity.
Qed.

(** [b / b] is the float 1. *)
Lemma int_truediv_same (b : Z) :
  b <> 0 -> int_truediv b b = mret (S754_finite false 4503599627370496 (-52)).
Proof.
  intros Hb. unfold int_truediv. pose proof Hb as Hb'.
  apply Z.eqb_neq in Hb'. rewrite Hb'.
  replace (xorb (b <? 0) (b <? 0)) with false by (by destruct (b <? 0)).
  unfold SFdiv_core_binary.
  assert (Hpos : 0 < Z.abs b) by lia.
  destruct (Z.abs b) as [| p | p] eqn:Hp; [lia | | lia].
  replace (Zdigits2 (Z.pos p) + 0 - (Zdigits2 (Z.pos p) + 0)) with 0 by lia.
  replace (Z.min (fexp prec emax 0) (0 - 0)) with (-53) by reflexivity.
  change (0 - 0 - -53) with 53. cbv iota.
  assert (Hdiv : Z.div_eucl (Z.shiftl (Z.pos p) 53) (Z.pos p) = (2 ^ 53, 0)).
  { pose proof (Z.div_eucl_eq (Z.shiftl (Z.pos p) 53) (Z.pos p)) as Heq.
    pose proof (Z.mod_pos_bound (Z.shiftl (Z.pos p) 53) (Z.pos p)) as Hbound.
    unfold Z.modulo in Hbound.
    destruct (Z.div_eucl (Z.shiftl (Z.pos p) 53) (Z.pos p)) as [q r].
    rewrite Z.shiftl_mul_pow2 in Heq by lia.
    specialize (Heq ltac:(lia)). specialize (Hbound ltac:(lia)).
    assert (q = 2 ^ 53 /\ r = 0) as [-> ->]; [| done].
    assert (Hr : Z.pos p * (2 ^ 53 - q) = r) by lia.
    assert (2 ^ 53 - q = 0) by nia. split; lia. }
  change (IntDef.Z.div_eucl (Z.shiftl (Z.pos p) 53) (Z.pos p))
    with (Z.div_eucl (Z.shiftl (Z.pos p) 53) (Z.pos p)).
  rewrite Hdiv, new_location_zero. reflexivity.
Qed.

Lemma percent_same (b : Z) : b <> 0 -> percent (PyInt b) (PyInt b) = mret 100.
Proof.
  intros Hb. unfold percent. cbn [truediv].
  rewrite (int_truediv_same b Hb), bind_ret. reflexivity.
Qed.

Lemma percent_zero (y : Z) : y <> 0 -> percent (PyInt 0) (PyInt y) = mret 0.
Proof.
  intros Hy. unfold percent. cbn [truediv].
  rewrite (int_truediv_zero y Hy), bind_ret. by destruct (y <? 0).
Qed.

(** X8: a download that is complete shows 100.  When [downloaded_bytes]
    equals the total (or, without [total_bytes], the estimate), both the
    same non-zero integer of any size, the hook emits exactly the
    percentage 100: the floating-point computation loses nothing here. *)
Theorem hook_all_downloaded (d : gmap string pyval) (b : Z) :
  b <> 0 ->
  d !! "status" = Some (PyStr "downloading") ->
  d !! "downloaded_bytes" = Some (PyInt b) ->
  d !! "total_bytes" = Some (PyInt b)
  \/ (d !! "total_bytes" = None /\ d !! "total_bytes_estimate" = Some (PyInt b)) ->
  DownloadWorker.hook d = ([progress 100], inr tt).
Proof.
  intros Hb Hs Ha [Ht | [Ht He]].
  - by rewrite (hook_total d _ _ Hs Ha Ht), (percent_same b Hb).
  - by rewrite (hook_estimate d _ _ Hs Ha Ht He), (percent_same b Hb).
Qed.

(** A file of 3 bytes, and one of 10^30 bytes. *)
Lemma hook_all_downloaded_witness :
  DownloadWorker.hook
    {[ "status" := PyStr "downloading";
       "downloaded_bytes" := PyInt 3;
       "total_bytes" := PyInt 3 ]}
  = ([progress 100], inr tt)
  /\ DownloadWorker.hook
       {[ "status" := PyStr "downloading";
          "downloaded_bytes" := PyInt (10 ^ 30);
          "total_bytes_estimate" := PyInt (10 ^ 30) ]}
     = ([progress 100], inr tt).
Proof.
  split.
  - apply (hook_all_downloaded _ 3); [lia | reflexivity | reflexivity |].
    left. reflexivity.
  - apply (hook_all_downloaded _ (10 ^ 30)); [lia | reflexivity | reflexivity |].
    right. split; reflexivity.
Defined.

(** X9: a download that has not begun shows 0.  When [downloaded_bytes]
    is 0 and the total (or, without [total_bytes], the estimate) is a
    non-zero integer, the hook emits exactly the percentage 0. *)
Theorem hook_nothing_downloaded (d : gmap string pyval) (y : Z) :
  y <> 0 ->
  d !! "status" = Some (PyStr "downloading") ->
  d !! "downloaded_bytes" = Some (PyInt 0) ->
  d !! "total_bytes" = Some (PyInt y)
  \/ (d !! "total_bytes" = None /\ d !! "total_bytes_estimate" = Some (PyInt y)) ->
  DownloadWorker.hook d = ([progress 0], inr tt).
Proof.
  intros Hy Hs Ha [Ht | [Ht He]].
  - by rewrite (hook_total d _ _ Hs Ha Ht), (percent_zero y Hy).
  - by rewrite (hook_estimate d _ _ Hs Ha Ht He), (percent_zero y Hy).
Qed.

(** The first event of a download of 4096 bytes. *)
Lemma hook_nothing_downloaded_witness :
  DownloadWorker.hook
    {[ "status" := PyStr "downloading";
       "downloaded_bytes" := PyInt 0;
       "total_bytes" := PyInt 4096 ]}
  = ([progress 0], inr tt).
Proof.
  apply (hook_nothing_downloaded _ 4096); [lia | reflexivity | reflexivity |].
  left. reflexivity.
Defined.

(** A finite float divided by itself is the float 1. *)
Lemma SFdiv_same (sg : bool) (m : positive) (e : Z) :
  SFdiv prec emax (S754_finite sg m e) (S754_finite sg m e)
  = S754_finite false 4503599627370496 (-52).
Proof.
  unfold SFdiv, SFdiv_core_binary.
  replace (xorb sg sg) with false by (by destruct sg).
  replace (Zdigits2 (Z.pos m) + e - (Zdigits2 (Z.pos m) + e)) with 0 by lia.
  replace (e - e) with 0 by lia.
  replace (Z.min (fexp prec emax 0) 0) with (-53) by reflexivity.
  change (0 - -53) with 53. cbv iota.
  assert (Hdiv : Z.div_eucl (Z.shiftl (Z.pos m) 53) (Z.pos m) = (2 ^ 53, 0)).
  { pose proof (Z.div_eucl_eq (Z.shiftl (Z.pos m) 53) (Z.pos m)) as Heq.
    pose proof (Z.mod_pos_bound (Z.shiftl (Z.pos m) 53) (Z.pos m)) as Hbound.
    unfold Z.modulo in Hbound.
    destruct (Z.div_eucl (Z.shiftl (Z.pos m) 53) (Z.pos m)) as [q r].
    rewrite Z.shiftl_mul_pow2 in Heq by lia.
    specialize (Heq ltac:(lia)). specialize (Hbound ltac:(lia)).
    assert (q = 2 ^ 53 /\ r = 0) as [-> ->]; [| done].
    assert (Hr : Z.pos m * (2 ^ 53 - q) = r) by lia.
    assert (2 ^ 53 - q = 0) by nia. split; lia. }
  change (IntDef.Z.div_eucl (Z.shiftl (Z.pos m) 53) (Z.pos m))
    with (Z.div_eucl (Z.shiftl (Z.pos m) 53) (Z.pos m)).
  rewrite Hdiv, new_location_zero. reflexivity.
Qed.

Lemma percent_same_float (a b : pyval) (sg : bool) (m : positive) (e : Z) :
  (a = PyFloat (S754_finite sg m e) \/
   exists z, a = PyInt z /\ float_of_Z z = S754_finite sg m e) ->
  b = PyFloat (S754_finite sg m e) ->
  percent a b = mret 100.
Proof.
  intros [-> | (z & -> & Hz)] ->; unfold percent; cbn [truediv].
  - unfold float_truediv. cbn [is_zero]. rewrite bind_ret, SFdiv_same. reflexivity.
  - unfold float_of_int. rewrite Hz. cbn [is_inf]. rewrite bind_ret.
    unfold float_truediv. cbn [is_zero]. rewrite bind_ret, SFdiv_same. reflexivity.
Qed.

(** X23: a complete download shows 100 also when the library gives the
    total as a float, as it does for estimates.  When the total (or,
    without [total_bytes], the estimate) is a finite non-zero float, and
    [downloaded_bytes] is that float or an integer whose float it is, the
    hook emits exactly the percentage 100. *)
Theorem hook_all_downloaded_float (d : gmap string pyval) (a : pyval)
    (sg : bool) (m : positive) (e : Z) :
  d !! "status" = Some (PyStr "downloading") ->
  d !! "downloaded_bytes" = Some a ->
  (a = PyFloat (S754_finite sg m e) \/
   exists z, a = PyInt z /\ float_of_Z z = S754_finite sg m e) ->
  d !! "total_bytes" = Some (PyFloat (S754_finite sg m e))
  \/ (d !! "total_bytes" = None
      /\ d !! "total_bytes_estimate" = Some (PyFloat (S754_finite sg m e))) ->
  DownloadWorker.hook d = ([progress 100], inr tt).
Proof.
  intros Hs Ha Hf [Ht | [Ht He]].
  - by rewrite (hook_total d _ _ Hs Ha Ht), (percent_same_float a _ sg m e Hf).
  - by rewrite (hook_estimate d _ _ Hs Ha Ht He), (percent_same_float a _ sg m e Hf).
Qed.

(** 1000000 bytes of an estimated 1000000.0. *)
Lemma hook_all_downloaded_float_witness :
  DownloadWorker.hook
    {[ "status" := PyStr "downloading";
       "downloaded_bytes" := PyInt 1000000;
       "total_bytes_estimate" := PyFloat (float_of_Z 1000000) ]}
  = ([progress 100], inr tt).
Proof.
  apply (hook_all_downloaded_float _ (PyInt 1000000) false 8589934592000000 (-33)).
  - reflexivity.
  - reflexivity.
  - right. exists 1000000. split; reflexivity.
  - right. split; reflexivity.
Defined.

(** ** The fields the hook reads *)

(** X10: the hook reads five fields of an event and no other: setting or
    removing any other field ([filename], [speed], [eta], ...) changes
    nothing of what the hook does. *)
Theorem hook_reads_five_fields (d : gmap string pyval) (k : string) (v : pyval) :
  k <> "status" -> k <> "downloaded_bytes" -> k <> "total_bytes" ->
  k <> "total_bytes_estimate" -> k <> "_percent_str" ->
  DownloadWorker.hook (<[k := v]> d) = DownloadWorker.hook d
  /\ DownloadWorker.hook (delete k d) = DownloadWorker.hook d.
Proof.
  intros H1 H2 H3 H4 H5. unfold DownloadWorker.hook, getitem, contains. split.
  - by rewrite !lookup_insert_ne.
  - by rewrite !lookup_delete_ne.
Qed.

(** An event with and without the speed of the download. *)
Lemma hook_reads_five_fields_witness :
  DownloadWorker.hook (<["speed" := PyFloat (S754_zero false)]> event_total)
  = DownloadWorker.hook event_total.
Proof.
  destruct (hook_reads_five_fields event_total "speed" (PyFloat (S754_zero false)))
    as [H _]; [apply String.eqb_neq; reflexivity .. | exact H].
Defined.

(** X11: the byte counts come first.  When [downloaded_bytes] and
    [total_bytes] are both there, the estimate and the percent string of
    the event are not looked at: whatever they are set to (a broken
    value included), the hook does the same. *)
Theorem hook_total_bytes_first (d : gmap string pyval) (a b v : pyval) :
  d !! "downloaded_bytes" = Some a ->
  d !! "total_bytes" = Some b ->
  DownloadWorker.hook (<["total_bytes_estimate" := v]> d) = DownloadWorker.hook d
  /\ DownloadWorker.hook (<["_percent_str" := v]> d) = DownloadWorker.hook d.
Proof.
  intros Ha Hb. unfold DownloadWorker.hook, getitem, contains. split.
  - rewrite !(lookup_insert_ne d "total_bytes_estimate" "status"),
      !(lookup_insert_ne d "total_bytes_estimate" "downloaded_bytes"),
      !(lookup_insert_ne d "total_bytes_estimate" "total_bytes")
      by (apply String.eqb_neq; reflexivity).
    rewrite Ha, Hb. cbn [andb]. reflexivity.
  - rewrite !(lookup_insert_ne d "_percent_str" "status"),
      !(lookup_insert_ne d "_percent_str" "downloaded_bytes"),
      !(lookup_insert_ne d "_percent_str" "total_bytes")
      by (apply String.eqb_neq; reflexivity).
    rewrite Ha, Hb. cbn [andb]. reflexivity.
Qed.

(** 50 of 100 bytes, with a percent string that is [None]. *)
Lemma hook_total_bytes_first_witness :
  DownloadWorker.hook (<["_percent_str" := PyNone]> event_total)
  = ([progress 50], inr tt).
Proof.
  destruct (hook_total_bytes_first event_total (PyInt 50) (PyInt 100) PyNone)
    as [_ H]; [reflexivity | reflexivity |].
  rewrite H. reflexivity.
Defined.

(** ** Trimming *)

Lemma rstrip_cons (c : ascii) (s : string) :
  isspace c = false -> rstrip (String c s) = String c (rstrip s).
Proof. intros Hc. simpl. destruct (rstrip s); [by rewrite Hc | done]. Qed.

Lemma rstrip_idempotent (s : string) : rstrip (rstrip s) = rstrip s.
Proof.
  induction s as [| c s IH]; [done |]. simpl.
  destruct (rstrip s) as [| c' r] eqn:Hr.
  - destruct (isspace c) eqn:Hc; [done |]. simpl. by rewrite Hc.
  - simpl in *. rewrite IH. reflexivity.
Qed.

(** Trimming twice is trimming once. *)
Lemma strip_idempotent (s : string) : strip (strip s) = strip s.
Proof.
  unfold strip.
  destruct (lstrip_head s) as [-> | (c & s' & -> & Hc)]; [done |].
  rewrite (rstrip_cons c s' Hc). simpl lstrip. rewrite Hc.
  rewrite <- (rstrip_cons c s' Hc). apply rstrip_idempotent.
Qed.

Lemma replace_absent (c : ascii) (s : string) :
  has_char c s = false -> replace c "" s = s.
Proof.
  induction s as [| c' s IH]; [done |]. simpl.
  destruct (Ascii.eqb c' c); [done |]. simpl. intros H. by rewrite IH.
Qed.

Lemma replace_removes (c : ascii) (s : string) :
  has_char c (replace c "" s) = false.
Proof.
  induction s as [| c' s IH]; [done |]. simpl.
  destruct (Ascii.eqb c' c) eqn:E; [done |]. simpl. by rewrite E.
Qed.

Lemma lstrip_keeps_absent (c : ascii) (s : string) :
  has_char c s = false -> has_char c (lstrip s) = false.
Proof.
  induction s as [| c' s IH]; [done |]. simpl.
  destruct (isspace c'); [| done].
  intros H. apply orb_false_iff in H as [_ H]. by apply IH.
Qed.

Lemma rstrip_keeps_absent (c : ascii) (s : string) :
  has_char c s = false -> has_char c (rstrip s) = false.
Proof.
  induction s as [| c' s IH]; [done |]. simpl.
  intros H. apply orb_false_iff in H as [Hc H]. specialize (IH H).
  destruct (rstrip s) as [| c'' r].
  - destruct (isspace c'); [done |]. simpl. by rewrite Hc.
  - simpl in *. by rewrite Hc, IH.
Qed.

(** Cleaning a percent string twice is cleaning it once. *)
Lemma clean_idempotent (s : string) :
  strip (replace "%" "" (strip (replace "%" "" s))) = strip (replace "%" "" s).
Proof.
  rewrite (replace_absent "%" (strip (replace "%" "" s))).
  - apply strip_idempotent.
  - unfold strip. apply rstrip_keeps_absent, lstrip_keeps_absent, replace_removes.
Qed.

(** X12: percent signs and surrounding blanks in the percent string do
    not matter: the hook does the same on an event as on the event whose
    [_percent_str] has its [%] characters removed and its ends trimmed.
    So [" 37.5% "], ["37.5%"] and ["37.5"] are one to the hook. *)
Theorem hook_cleans_percent_str (d : gmap string pyval) (s : string) :
  DownloadWorker.hook (<["_percent_str" := PyStr s]> d)
  = DownloadWorker.hook
      (<["_percent_str" := PyStr (strip (replace "%" "" s))]> d).
Proof.
  set (d1 := <["_percent_str" := PyStr s]> d).
  set (d2 := <["_percent_str" := PyStr (strip (replace "%" "" s))]> d).
  assert (Hother : forall k, String.eqb "_percent_str" k = false ->
            d1 !! k = d !! k /\ d2 !! k = d !! k).
  { intros k Hk. apply String.eqb_neq in Hk.
    unfold d1, d2. by rewrite !lookup_insert_ne. }
  destruct (Hother "status" eq_refl) as [Hs1 Hs2].
  destruct (Hother "downloaded_bytes" eq_refl) as [Ha1 Ha2].
  destruct (Hother "total_bytes" eq_refl) as [Hb1 Hb2].
  destruct (Hother "total_bytes_estimate" eq_refl) as [Hc1 Hc2].
  assert (Hp1 : d1 !! "_percent_str" = Some (PyStr s))
    by apply lookup_insert_eq.
  assert (Hp2 : d2 !! "_percent_str" = Some (PyStr (strip (replace "%" "" s))))
    by apply lookup_insert_eq.
  clearbody d1 d2.
  destruct (d !! "status") as [status |] eqn:Hs.
  2: { unfold DownloadWorker.hook, getitem. by rewrite Hs1, Hs2. }
  destruct (eq_str status "downloading") eqn:E1.
  - apply eq_str_true in E1. subst status.
    destruct (d !! "downloaded_bytes") as [a |] eqn:Ha;
      destruct (d !! "total_bytes") as [b |] eqn:Hb;
      destruct (d !! "total_bytes_estimate") as [c |] eqn:Hc;
      try (by rewrite (hook_total d1 a b), (hook_total d2 a b));
      try (by rewrite (hook_estimate d1 a c), (hook_estimate d2 a c));
      (rewrite (hook_percent_str_read d1 s),
         (hook_percent_str_read d2 (strip (replace "%" "" s)));
       [ by rewrite clean_idempotent
       | done
       | unfold contains; by rewrite ?Ha2, ?Hb2, ?Hc2
       | unfold contains; by rewrite ?Ha2, ?Hb2, ?Hc2
       | done
       | done
       | unfold contains; by rewrite ?Ha1, ?Hb1, ?Hc1
       | unfold contains; by rewrite ?Ha1, ?Hb1, ?Hc1
       | done ]).
  - destruct (eq_str status "finished") eqn:E2.
    + apply eq_str_true in E2. subst status.
      by rewrite (hook_status_finished d1), (hook_status_finished d2).
    + assert (status <> PyStr "downloading") by (intros ->; discriminate E1).
      assert (status <> PyStr "finished") by (intros ->; discriminate E2).
      by rewrite (hook_status_other d1 status),
           (hook_status_other d2 status).
Qed.

(** ** The job, path by path *)

(** X13: a job in which the library raises nothing emits, in this order,
    the mode line (MP4 only), what the construction of the library object
    made the callbacks emit, the line [Starting download...], what the
    download and then leaving the [with] block made them emit, and
    [finished]; it logs no [Exception: ] line of its own and returns. *)
Theorem run_when_library_returns (w : DownloadWorker.t)
    (library : gmap string optval -> YoutubeDL) :
  outcome (init_call w library) = inr tt ->
  outcome (download_call w library) = inr tt ->
  outcome (exit_call w library) = inr tt ->
  DownloadWorker.run w library =
    (mode_banner w ++ trace (init_call w library) ++ [log "Starting download..."]
       ++ trace (download_call w library) ++ trace (exit_call w library)
       ++ [finished],
     inr tt).
Proof.
  intros Hi Hd Hx.
  pose proof (guarded_entered w library Hi) as Hg. rewrite Hx, Hd in Hg.
  rewrite (run_returned w library); [| by rewrite Hg].
  rewrite Hg. cbn [trace fst]. f_equal. f_equal. by rewrite <- !app_assoc.
Qed.

(** An MP3 job whose download reports 50 of 100 bytes and the end. *)
Lemma run_when_library_returns_witness :
  DownloadWorker.run worker_mp3 library_ok =
    ([log "Starting download...";
      log "[download] Destination: a.mp4";
      progress 50;
      progress 100;
      log "Download finished";
      finished],
     inr tt).
Proof. apply (run_when_library_returns worker_mp3 library_ok); reflexivity. Defined.

(** X14: when the construction of the library object raises an instance
    of [Exception], the download is never called: the job logs neither
    [Starting download...] nor anything a download would emit, but the
    [Exception: ] line with the message, then emits [finished] and
    returns. *)
Theorem run_when_construction_raises (w : DownloadWorker.t)
    (library : gmap string optval -> YoutubeDL) (e : exn) :
  outcome (init_call w library) = inl e ->
  is_Exception e = true ->
  DownloadWorker.run w library =
    (mode_banner w ++ trace (init_call w library)
       ++ [log ("Exception: " +:+ exn_msg e); finished],
     inr tt).
Proof.
  intros Hi He.
  pose proof (guarded_init_raises w library e Hi) as Hg.
  rewrite (run_caught w library e); [| by rewrite Hg | done].
  by rewrite Hg.
Qed.

(** X15: what leaving the [with] block raises replaces what the download
    raised.  When the object was constructed and [__exit__] raises an
    instance of [Exception], the [Exception: ] line of the job carries
    the message of that exception, whether the download returned or
    raised; the job still emits [finished] and returns. *)
Theorem run_when_exit_raises (w : DownloadWorker.t)
    (library : gmap string optval -> YoutubeDL) (e : exn) :
  outcome (init_call w library) = inr tt ->
  outcome (exit_call w library) = inl e ->
  is_Exception e = true ->
  DownloadWorker.run w library =
    (mode_banner w ++ trace (init_call w library) ++ [log "Starting download..."]
       ++ trace (download_call w library) ++ trace (exit_call w library)
       ++ [log ("Exception: " +:+ exn_msg e); finished],
     inr tt).
Proof.
  intros Hi Hx He.
  pose proof (guarded_entered w library Hi) as Hg. rewrite Hx in Hg.
  rewrite (run_caught w library e); [| by rewrite Hg | done].
  rewrite Hg. cbn [trace fst]. f_equal. f_equal. by rewrite <- !app_assoc.
Qed.

(** X16: for a library whose calls come back, [run] never ends with an
    instance of [Exception].  It ends with an exception exactly when the
    body of its [try] statement ends with that exception and the
    exception is no instance of [Exception] ([KeyboardInterrupt],
    [SystemExit], [GeneratorExit]); and then [run] itself has emitted
    nothing after that body: no [Exception: ] line. *)
Theorem run_never_raises_Exception (w : DownloadWorker.t)
    (library : gmap string optval -> YoutubeDL) (e : exn) :
  (outcome (DownloadWorker.run w library) = inl e
   <-> outcome (DownloadWorker.guarded w library) = inl e
       /\ is_Exception e = false)
  /\ (outcome (DownloadWorker.run w library) = inl e ->
      trace (DownloadWorker.run w library)
      = mode_banner w ++ trace (DownloadWorker.guarded w library)).
Proof.
  destruct (run_outcome_cases w library)
    as [(before & Hrun & _) | (e' & Hg & He' & Hrun)]; rewrite Hrun.
  - split; [split |]; try discriminate.
    intros [Hg He].
    pose proof (run_uncaught w library e Hg He) as Hrun'.
    rewrite Hrun in Hrun'. discriminate Hrun'.
  - cbn [outcome trace fst snd]. split; [split |].
    + intros [= <-]. by split.
    + intros [Hg' _]. rewrite Hg in Hg'. by injection Hg' as <-.
    + done.
Qed.

(** A job interrupted during the download. *)
Lemma run_never_raises_Exception_witness :
  is_Exception (Exn KeyboardInterrupt "") = false
  /\ trace (DownloadWorker.run worker_mp4 library_interrupted)
     = [log "Mode: MP4 (H.264 / AVC)"; log "Starting download..."].
Proof.
  destruct (run_never_raises_Exception worker_mp4 library_interrupted
              (Exn KeyboardInterrupt "")) as [[Hto _] Htrace].
  split.
  - exact (proj2 (Hto eq_refl)).
  - rewrite (Htrace eq_refl). reflexivity.
Defined.

(** A job whose library object cannot be constructed. *)
Lemma run_when_construction_raises_witness :
  DownloadWorker.run worker_mp4 library_bad_options =
    ([log "Mode: MP4 (H.264 / AVC)";
      log "Warning: unknown option";
      log "Exception: invalid options";
      finished],
     inr tt).
Proof.
  apply (run_when_construction_raises worker_mp4 library_bad_options
           (Exn ValueError "invalid options")); reflexivity.
Defined.

(** A job whose download fails and whose [__exit__] fails then. *)
Lemma run_when_exit_raises_witness :
  DownloadWorker.run worker_mp3 library_bad_exit =
    ([log "Starting download..."; log "Exception: cannot save cookies"; finished],
     inr tt).
Proof.
  apply (run_when_exit_raises worker_mp3 library_bad_exit
           (Exn (OtherException "OSError") "cannot save cookies")); reflexivity.
Defined.

(** ** The controller, further *)

Lemma strip_is_empty (s : string) : String.eqb (strip s) "" = all_space s.
Proof.
  destruct (all_space s) eqn:H.
  - apply strip_empty in H. by rewrite H.
  - apply String.eqb_neq. intros Hs. apply strip_empty in Hs. congruence.
Qed.

(** X17: when a start request starts a job.  It starts one exactly when
    neither the URL field nor the output field consists of blanks only
    (the empty text included); it never starts more than one; and in no
    case does it change the URL field, the output field or the mode. *)
Theorem start_download_starts_iff (self : MainWindow.t) :
  (snd (MainWindow.start_download self) = []
   <-> all_space (MainWindow.url_input self)
       || all_space (MainWindow.output_path self) = true)
  /\ (length (snd (MainWindow.start_download self)) <= 1)%nat
  /\ MainWindow.url_input (fst (MainWindow.start_download self))
     = MainWindow.url_input self
  /\ MainWindow.output_path (fst (MainWindow.start_download self))
     = MainWindow.output_path self
  /\ MainWindow.mp3_radio (fst (MainWindow.start_download self))
     = MainWindow.mp3_radio self.
Proof.
  unfold MainWindow.start_download. rewrite !strip_is_empty.
  destruct (all_space (MainWindow.url_input self));
    destruct (all_space (MainWindow.output_path self)); simpl;
    repeat split; try done; lia.
Qed.

(** X19: choosing the output folder.  A cancelled dialog (empty result)
    leaves the window as it was, the earlier folder included.  A folder
    that was chosen replaces an earlier one.  And a start request made
    after a folder was chosen, with a URL that is not blank, starts one
    job with the trimmed URL, the mode, and the folder, trimmed, as its
    output directory, provided the folder does not consist of blanks. *)
Theorem choose_output_dir_then_start (self : MainWindow.t) (folder : string) :
  MainWindow.choose_output_dir "" self = self
  /\ (folder <> "" ->
      forall earlier,
        MainWindow.choose_output_dir folder
          (MainWindow.choose_output_dir earlier self)
        = MainWindow.choose_output_dir folder self)
  /\ (all_space (MainWindow.url_input self) = false ->
      all_space folder = false ->
      snd (MainWindow.start_download (MainWindow.choose_output_dir folder self))
      = [ {| DownloadWorker.url := strip (MainWindow.url_input self);
             DownloadWorker.is_mp3 := MainWindow.mp3_radio self;
             DownloadWorker.output_dir := strip folder |} ]).
Proof.
  repeat apply conj.
  - reflexivity.
  - intros Hf earlier. unfold MainWindow.choose_output_dir.
    apply String.eqb_neq in Hf. rewrite Hf.
    by destruct (String.eqb earlier "").
  - intros Hu Hf. unfold MainWindow.choose_output_dir.
    destruct (String.eqb folder "") eqn:E.
    { apply String.eqb_eq in E. subst folder. discriminate Hf. }
    unfold MainWindow.start_download. cbn [MainWindow.url_input
      MainWindow.output_path MainWindow.mp3_radio].
    by rewrite !strip_is_empty, Hu, Hf.
Qed.

(** The fresh window with a URL, after the dialog returned [/usr]. *)
Lemma choose_output_dir_then_start_witness :
  snd (MainWindow.start_download window_usr)
  = [ {| DownloadWorker.url := "https://example.com/watch?v=1";
         DownloadWorker.is_mp3 := false;
         DownloadWorker.output_dir := "/usr" |} ].
Proof.
  destruct (choose_output_dir_then_start
              {| MainWindow.url_input := "https://example.com/watch?v=1";
                 MainWindow.output_path := "";
                 MainWindow.mp3_radio := false;
                 MainWindow.progress_bar := -1;
                 MainWindow.log_box := [];
                 MainWindow.dl_button := true;
                 MainWindow.worker := None |} "/usr") as (_ & _ & H).
  apply H; reflexivity.
Defined.

(** ** The logger in the job *)

(** X22: the logger that the job hands to the library cannot end a
    download.  Whatever the level and the message, a logger callback run
    with the options of the job returns, and what it emits is nothing or
    one [log] signal: never [progress], never [finished]. *)
Theorem logger_callbacks_return (w : DownloadWorker.t) (c : callback) :
  (forall d, c <> ProgressHook d) ->
  outcome (run_callback (DownloadWorker.ydl_opts w) c) = inr tt
  /\ (trace (run_callback (DownloadWorker.ydl_opts w) c) = []
      \/ exists line, trace (run_callback (DownloadWorker.ydl_opts w) c) = [log line]).
Proof.
  intros Hc. destruct c as [d | msg | msg | msg | msg].
  - by destruct (Hc d).
  - unfold run_callback. rewrite ydl_opts_logger.
    destruct (logger_debug_cases msg) as [-> | ->]; eauto.
  - unfold run_callback. rewrite ydl_opts_logger. simpl. eauto.
  - unfold run_callback. rewrite ydl_opts_logger. simpl. eauto.
  - unfold run_callback. rewrite ydl_opts_logger. simpl. eauto.
Qed.

(** An error message of the library, in an MP3 job. *)
Lemma logger_callbacks_return_witness :
  outcome (run_callback (DownloadWorker.ydl_opts worker_mp3)
             (LoggerError "ERROR: Unsupported URL")) = inr tt.
Proof.
  apply (logger_callbacks_return worker_mp3 (LoggerError "ERROR: Unsupported URL")).
  intros d H. discriminate H.
Defined.
